(** * Farm dashboard: session lifecycle and dashboard aggregation

A shallow embedding of
- [src/contexts/AuthContext.tsx] (module [Session]: the provider's
  state, [clearSession], [handleSessionError], [signOut], [signUp] and
  the [checkUser] of the mount effect; module [AuthEvents]: the handler
  of the auth-change subscription and the requests that [signUp] and
  [signIn] send);
- [src/components/LoadingSpinner.tsx] (module [Session]: the two timers
  of the loading guard and the effect that owns them; module
  [AuthEvents]: the button of the hint);
- the dashboard page (module [Dashboard]: [fetchDashboardData] and the
  derived chart series; module [DashboardView]: the values computed
  while the page renders);
- the route table of the application (module [Routes]).

Conventions.
- A JS [number] is an exact rational ([Q]) and [Math.round x] is
  [floor (x + 1/2)].  The binary64 rounding of a quotient is not part
  of the model; on the integer ratios of the dashboard it can change a
  rounded percentage only when the exact value lies halfway between two
  integers.  Module [Binary64] evaluates the same expressions on
  doubles, to cross-check the numbers quoted by the specification.
- A row of the external service is a finite map from property names to
  values.  An object used as a dictionary keeps its properties in
  creation order and lists them as [Object.entries] does (module
  [JSObject]).
- [await] on the external service is modelled by its outcome: the
  promise is rejected, or it resolves with a value.
- Time is counted in milliseconds; timers live in a queue (module
  [Timers]) and the event loop of module [Session] either settles the
  suspended session check or fires the next timer.  Module
  [AuthEvents] adds what else reaches the provider: a notification of
  the auth-change subscription, a click on the hint's button and a call
  of [signOut]. *)

From Stdlib Require Import ZArith QArith Qround Qabs Lqa List String Ascii Bool Lia.
From Stdlib Require Import Sorted Permutation.
From Stdlib Require PrimFloat FloatOps SpecFloat Uint63.
From stdpp Require Import gmap strings list.

Open Scope Z_scope.

(** ** JavaScript values and numbers *)

Module JS.

(** The primitive values that occur in rows of the external service. *)
Inductive Value :=
| VNull
| VBool (b : bool)
| VNum (q : Q)
| VStr (s : string).

(** [Math.round]: the integer closest to [x], ties towards +infinity. *)
Definition Math_round (x : Q) : Z := Qfloor (x + (1 # 2))%Q.

(** [x || 0] on a possibly-null number: [null], [undefined] and [0]
    all give [0]. *)
Definition or_zero (x : option Q) : Q :=
  match x with
  | Some q => if Qeq_bool q 0 then 0%Q else q
  | None => 0%Q
  end.

(** [xs || []] on a possibly-null array. *)
Definition or_empty {A} (xs : option (list A)) : list A :=
  match xs with
  | Some l => l
  | None => []
  end.

(** [xs?.length || 0]. *)
Definition length_or_zero {A} (xs : option (list A)) : Z :=
  match xs with
  | Some l => Z.of_nat (length l)
  | None => 0
  end.

(** The outcome of awaiting a promise. *)
Inductive Outcome (A E : Type) :=
| Resolved (a : A)
| Rejected (e : E).
Arguments Resolved {A E} a.
Arguments Rejected {A E} e.

(** Sequencing of awaits inside a [try] block: the first rejection
    leaves the block. *)
Definition bind {A B E} (o : Outcome A E) (k : A -> Outcome B E) : Outcome B E :=
  match o with
  | Resolved a => k a
  | Rejected e => Rejected e
  end.

End JS.

Notation "'await' x <- o ; k" := (JS.bind o (fun x => k))
  (at level 10, x name, o at level 100, k at level 200).

(** ** Binary64 arithmetic, for cross-checking the exact model *)

Module Binary64.

Definition of_Z (z : Z) : PrimFloat.float := PrimFloat.of_uint63 (Uint63.of_Z z).

(** [Math.round] on a double: the nearest integer, ties towards
    +infinity; [NaN] and the infinities are not integers and are mapped
    to 0 here. *)
Definition Math_round (x : PrimFloat.float) : Z :=
  match FloatOps.Prim2SF x with
  | SpecFloat.S754_finite s m e =>
      let v := if s then Z.neg m else Z.pos m in
      if 0 <=? e then v * 2 ^ e
      else (2 * v + 2 ^ (- e)) / (2 * 2 ^ (- e))
  | _ => 0
  end.

(** [Math.round((c / t) * 100)] on integers. *)
Definition percentage (c t : Z) : Z :=
  Math_round (PrimFloat.mul (PrimFloat.div (of_Z c) (of_Z t)) (of_Z 100)).

(** [Math.round(total / n)] on integers. *)
Definition rounded_quotient (total n : Z) : Z :=
  Math_round (PrimFloat.div (of_Z total) (of_Z n)).

End Binary64.

(** ** Ordinary JavaScript objects used as dictionaries *)

Module JSObject.

(** An object created by the literal [{}]: its own properties, in the
    order in which they were created.  It inherits from
    [Object.prototype]. *)
Definition t (V : Type) := list (string * V).

Definition empty {V} : t V := [].

(** The property names of [Object.prototype]; each holds a function or
    an object, hence a truthy value. *)
Definition prototype_keys : list string :=
  ["constructor"; "hasOwnProperty"; "isPrototypeOf"; "propertyIsEnumerable";
   "toLocaleString"; "toString"; "valueOf"; "__proto__";
   "__defineGetter__"; "__defineSetter__"; "__lookupGetter__";
   "__lookupSetter__"]%string.

Definition inherited (k : string) : bool :=
  existsb (String.eqb k) prototype_keys.

Fixpoint get_own {V} (o : t V) (k : string) : option V :=
  match o with
  | [] => None
  | (k', v) :: o' => if String.eqb k' k then Some v else get_own o' k
  end.

(** The truthiness of [o[k]] when every own value is an object. *)
Definition truthy {V} (o : t V) (k : string) : bool :=
  match get_own o k with
  | Some _ => true
  | None => inherited k
  end.

(** [o[k] = v] on a name that is not inherited: replaces the own
    property in place or creates it last. *)
Fixpoint set {V} (o : t V) (k : string) (v : V) : t V :=
  match o with
  | [] => [(k, v)]
  | (k', v') :: o' =>
      if String.eqb k' k then (k, v) :: o' else (k', v') :: set o' k v
  end.

(** [o[k].field = f (o[k].field)]: a write through [o[k]].  When [k]
    is not an own property the write lands on the inherited member and
    leaves [o] as it was. *)
Fixpoint update {V} (o : t V) (k : string) (f : V -> V) : t V :=
  match o with
  | [] => []
  | (k', v) :: o' =>
      if String.eqb k' k then (k', f v) :: o' else (k', v) :: update o' k f
  end.

(** Array indices: canonical decimal strings below [2^32 - 1]. *)
Definition is_digit (c : ascii) : bool :=
  ((48 <=? nat_of_ascii c) && (nat_of_ascii c <=? 57))%nat.

Fixpoint digits_value (s : string) (acc : N) : option N :=
  match s with
  | EmptyString => Some acc
  | String c s' =>
      if is_digit c
      then digits_value s' (10 * acc + (N_of_ascii c - 48))%N
      else None
  end.

Definition array_index (k : string) : option N :=
  match k with
  | EmptyString => None
  | String c EmptyString =>
      if is_digit c then Some (N_of_ascii c - 48)%N else None
  | String c _ =>
      if Ascii.eqb c "0" then None
      else match digits_value k 0%N with
           | Some n => if (n <? 2 ^ 32 - 1)%N then Some n else None
           | None => None
           end
  end.

Definition is_array_index (k : string) : bool :=
  match array_index k with Some _ => true | None => false end.

Fixpoint insert_by_index {V} (n : N) (kv : string * V)
         (l : list (N * (string * V))) : list (N * (string * V)) :=
  match l with
  | [] => [(n, kv)]
  | (m, kv') :: l' =>
      if (n <=? m)%N then (n, kv) :: l
      else (m, kv') :: insert_by_index n kv l'
  end.

Fixpoint index_entries {V} (o : t V) : list (N * (string * V)) :=
  match o with
  | [] => []
  | (k, v) :: o' =>
      match array_index k with
      | Some n => insert_by_index n (k, v) (index_entries o')
      | None => index_entries o'
      end
  end.

(** [Object.entries o]: array-index keys first, in ascending numeric
    order, then the other keys in creation order. *)
Definition entries {V} (o : t V) : list (string * V) :=
  map snd (index_entries o)
  ++ List.filter (fun kv => negb (is_array_index (fst kv))) o.

End JSObject.

(** ** Records of the external service *)

(** Modelled from the spec: the [Farmer] type of [lib/supabase], which
    is imported by the sources but declared elsewhere; section 3 of the
    specification gives it an id, a name, an email and further profile
    fields. *)
Record Farmer := {
  farmer_id : string;
  farmer_name : string;
  farmer_email : string;
  farmer_profile : gmap string JS.Value
}.

(** ** The dashboard page *)

Module Dashboard.
Import JS.

Record Land := { land_id : string; location : string; acres : Q }.

Record Plant := { plant_land_id : string; disease_percentage : option Q }.

(** [scheduled_date] holds the instant that [new Date(t.scheduled_date)]
    denotes, in milliseconds since the epoch. *)
Record Treatment := {
  pesticide_name : string;
  scheduled_date : Z;
  completed : bool
}.

Record Diagnosis := { diagnosis_id : string; created_at : Z }.

(** The component state, lines 11-20. *)
Record Stats := {
  totalLands : Z;
  totalAcres : Q;
  activeTreatments : Z;
  completedTreatments : Z;
  averageDiseasePercentage : Z
}.

Record State := {
  stats : Stats;
  lands : list Land;
  treatments : list Treatment;
  diagnoses : list Diagnosis;
  console : list string
}.

Definition initial : State :=
  {| stats := {| totalLands := 0; totalAcres := 0; activeTreatments := 0;
                 completedTreatments := 0; averageDiseasePercentage := 0 |};
     lands := []; treatments := []; diagnoses := []; console := [] |}.

(** What a query of the external service resolves to: [{ data, error }].
    The page reads [data] only. *)
Record Response (A : Type) := { data : option (list A); error : option string }.
Arguments data {A} _.
Arguments error {A} _.

Definition Query (A : Type) := Outcome (Response A) string.

(** The four queries of one fetch cycle, lines 35-58. *)
Record Backend := {
  from_lands : string -> Query Land;
  from_plants : list string -> Query Plant;
  from_treatment_schedules : string -> Query Treatment;
  from_plant_diagnosis : string -> Query Diagnosis
}.

Definition count {A} (p : A -> bool) (l : list A) : Z :=
  Z.of_nat (length (List.filter p l)).

(** Lines 65-67. *)
Definition calc_totalAcres (landsData : option (list Land)) : Q :=
  match landsData with
  | Some l => or_zero (Some (fold_left (fun sum land => (sum + acres land)%Q) l 0%Q))
  | None => 0%Q
  end.

Definition calc_activeTreatments (treatmentsData : option (list Treatment)) : Z :=
  match treatmentsData with
  | Some l => count (fun t => negb (completed t)) l
  | None => 0
  end.

Definition calc_completedTreatments (treatmentsData : option (list Treatment)) : Z :=
  match treatmentsData with
  | Some l => count completed l
  | None => 0
  end.

(** Lines 70-74 and 81. *)
Definition plants_total (plantsData : list Plant) : Q :=
  fold_left (fun sum plant => (sum + or_zero (disease_percentage plant))%Q)
            plantsData 0%Q.

Definition avgDiseasePercentage (plantsData : option (list Plant)) : Q :=
  match plantsData with
  | Some (p :: ps) =>
      (plants_total (p :: ps) / inject_Z (Z.of_nat (length (p :: ps))))%Q
  | _ => 0%Q
  end.

Definition calc_averageDiseasePercentage (plantsData : option (list Plant)) : Z :=
  Math_round (avgDiseasePercentage plantsData).

Definition console_error (msg : string) (st : State) : State :=
  {| stats := stats st; lands := lands st; treatments := treatments st;
     diagnoses := diagnoses st; console := console st ++ [msg] |}.

(** [fetchDashboardData], lines 30-86. *)
Definition fetchDashboardData (user : option Farmer) (db : Backend) (st : State) : State :=
  match user with
  | None => st
  | Some u =>
      let block :=
        await l <- from_lands db (farmer_id u);
        let landsData := data l in
        await p <- from_plants db (map land_id (or_empty landsData));
        let plantsData := data p in
        await t <- from_treatment_schedules db (farmer_id u);
        let treatmentsData := data t in
        await d <- from_plant_diagnosis db (farmer_id u);
        let diagnosesData := data d in
        Resolved
          {| lands := or_empty landsData;
             treatments := or_empty treatmentsData;
             diagnoses := or_empty diagnosesData;
             stats :=
               {| totalLands := length_or_zero landsData;
                  totalAcres := calc_totalAcres landsData;
                  activeTreatments := calc_activeTreatments treatmentsData;
                  completedTreatments := calc_completedTreatments treatmentsData;
                  averageDiseasePercentage :=
                    calc_averageDiseasePercentage plantsData |};
             console := console st |}
      in
      match block with
      | Resolved st' => st'
      | Rejected e => console_error ("Error fetching dashboard data: " ++ e) st
      end
  end.


(** *** Crop-health donut, lines 173-201 *)

Record Slice := { name : string; value : Z; fill : string }.

Definition calculateCropHealth (treatments : list Treatment) : list Slice :=
  if Z.of_nat (length treatments) =? 0 then
    [ {| name := "No Data"; value := 100; fill := "#9CA3AF" |} ]
  else
    let completedCount := count completed treatments in
    let totalTreatments := Z.of_nat (length treatments) in
    if totalTreatments =? 0 then
      [ {| name := "Needs Treatment"; value := 100; fill := "#EF4444" |} ]
    else
      let healthyPercentage :=
        Math_round ((inject_Z completedCount / inject_Z totalTreatments) * 100)%Q in
      let needsTreatmentPercentage := 100 - healthyPercentage in
      let result := [] in
      let result :=
        if 0 <? healthyPercentage
        then result ++ [ {| name := "Treated"; value := healthyPercentage;
                            fill := "#10B981" |} ]
        else result in
      let result :=
        if 0 <? needsTreatmentPercentage
        then result ++ [ {| name := "Needs Treatment";
                            value := needsTreatmentPercentage;
                            fill := "#EF4444" |} ]
        else result in
      result.

(** *** Pesticide usage, lines 150-170 *)

Record PesticideStat := { used : Z; effective : Z }.

(** A row of the chart: [{ pesticide, used, effectiveness }]; the
    row's [used] is named [row_used] here. *)
Record UsageRow := { pesticide : string; row_used : Z; effectiveness : Z }.

(** [s.split(' ')[0]]: the characters before the first space. *)
Fixpoint first_word (s : string) : string :=
  match s with
  | EmptyString => EmptyString
  | String c s' => if Ascii.eqb c " " then EmptyString else String c (first_word s')
  end.

(** The reducer of lines 151-161. *)
Definition usage_step (acc : JSObject.t PesticideStat) (treatment : Treatment)
  : JSObject.t PesticideStat :=
  let name := first_word (pesticide_name treatment) in
  let acc :=
    if negb (JSObject.truthy acc name)
    then JSObject.set acc name {| used := 0; effective := 0 |}
    else acc in
  let acc :=
    JSObject.update acc name
      (fun s => {| used := used s + 1; effective := effective s |}) in
  let acc :=
    if completed treatment
    then JSObject.update acc name
           (fun s => {| used := used s; effective := effective s + 1 |})
    else acc in
  acc.

Definition usage_row (entry : string * PesticideStat) : UsageRow :=
  let '(pesticide, stats) := entry in
  {| pesticide := pesticide;
     row_used := used stats;
     effectiveness :=
       if 0 <? used stats
       then Math_round ((inject_Z (effective stats) / inject_Z (used stats)) * 100)%Q
       else 0 |}.

Definition generatePesticideUsage (treatments : list Treatment) : list UsageRow :=
  let pesticideStats := fold_left usage_step treatments JSObject.empty in
  firstn 6 (map usage_row (JSObject.entries pesticideStats)).

(** *** 30-day health trend, lines 124-147 *)








End Dashboard.

(** ** Timers of the event loop *)

Module Timers.

Record Timer (C : Type) := { timer_id : nat; due : Z; callback : C }.
Arguments timer_id {C} _.
Arguments due {C} _.
Arguments callback {C} _.

Record Queue (C : Type) := { next_id : nat; pending : list (Timer C) }.
Arguments next_id {C} _.
Arguments pending {C} _.

Definition empty {C} : Queue C := {| next_id := 1; pending := [] |}.

(** [setTimeout(cb, delay)] at time [now]: the new timer's id and the
    queue that holds it. *)
Definition setTimeout {C} (cb : C) (delay now : Z) (q : Queue C) : nat * Queue C :=
  (next_id q,
   {| next_id := S (next_id q);
      pending := pending q
                 ++ [ {| timer_id := next_id q; due := now + delay;
                         callback := cb |} ] |}).

(** [clearTimeout(id)]; an unknown or undefined id is ignored. *)
Definition clearTimeout {C} (id : option nat) (q : Queue C) : Queue C :=
  match id with
  | None => q
  | Some i =>
      {| next_id := next_id q;
         pending := List.filter (fun t => negb (Nat.eqb (timer_id t) i)) (pending q) |}
  end.

(** The timer that fires next: the earliest due one, the older one
    among equals. *)
Fixpoint earliest {C} (l : list (Timer C)) : option (Timer C) :=
  match l with
  | [] => None
  | t :: l' =>
      match earliest l' with
      | Some t' => if due t <=? due t' then Some t else Some t'
      | None => Some t
      end
  end.

Definition remove {C} (t : Timer C) (q : Queue C) : Queue C :=
  clearTimeout (Some (timer_id t)) q.

End Timers.

(** ** The session provider and the loading guard *)

Module Session.
Import JS.

Definition MAX_SESSION_CHECK_ATTEMPTS : Z := 3.

(** The closures handed to [setTimeout]. *)
Inductive Callback :=
| SessionCheckTimeout   (* AuthContext.tsx, line 51 *)
| RetryCheck            (* AuthContext.tsx, line 89 *)
| ShowTimeoutMessage    (* LoadingSpinner.tsx, line 10 *)
| ForceRedirect.        (* LoadingSpinner.tsx, line 15 *)

(** The provider's state ([user], [loading], [sessionCheckAttempts]),
    the count of its renders, the variables of its mount effect
    ([timeoutId], and whether a [checkUser] call is suspended at an
    [await]), the loading guard's state and the timer ids held by its
    effect's cleanup together with the render whose [clearSession] the
    effect depends on, and the browser. *)
Record World := {
  user : option Farmer;
  loading : bool;
  sessionCheckAttempts : Z;
  renders : nat;
  timeoutId : option nat;
  in_flight : bool;
  showTimeout : bool;
  spinner_effect : option (nat * nat * nat);
  localStorage : gmap string string;
  sessionStorage : gmap string string;
  location_href : string;
  console : list string;
  now : Z;
  timers : Timers.Queue Callback
}.

(** Functional updates of one field. *)

Definition with_user (x : option Farmer) (w : World) : World :=
  {| user := x; loading := loading w;
     sessionCheckAttempts := sessionCheckAttempts w; renders := renders w;
     timeoutId := timeoutId w; in_flight := in_flight w;
     showTimeout := showTimeout w; spinner_effect := spinner_effect w;
     localStorage := localStorage w; sessionStorage := sessionStorage w;
     location_href := location_href w; console := console w; now := now w;
     timers := timers w |}.

Definition with_loading (x : bool) (w : World) : World :=
  {| user := user w; loading := x;
     sessionCheckAttempts := sessionCheckAttempts w; renders := renders w;
     timeoutId := timeoutId w; in_flight := in_flight w;
     showTimeout := showTimeout w; spinner_effect := spinner_effect w;
     localStorage := localStorage w; sessionStorage := sessionStorage w;
     location_href := location_href w; console := console w; now := now w;
     timers := timers w |}.

Definition with_sessionCheckAttempts (x : Z) (w : World) : World :=
  {| user := user w; loading := loading w; sessionCheckAttempts := x;
     renders := renders w; timeoutId := timeoutId w;
     in_flight := in_flight w; showTimeout := showTimeout w;
     spinner_effect := spinner_effect w; localStorage := localStorage w;
     sessionStorage := sessionStorage w; location_href := location_href w;
     console := console w; now := now w; timers := timers w |}.

Definition with_renders (x : nat) (w : World) : World :=
  {| user := user w; loading := loading w;
     sessionCheckAttempts := sessionCheckAttempts w; renders := x;
     timeoutId := timeoutId w; in_flight := in_flight w;
     showTimeout := showTimeout w; spinner_effect := spinner_effect w;
     localStorage := localStorage w; sessionStorage := sessionStorage w;
     location_href := location_href w; console := console w; now := now w;
     timers := timers w |}.

Definition with_timeoutId (x : option nat) (w : World) : World :=
  {| user := user w; loading := loading w;
     sessionCheckAttempts := sessionCheckAttempts w; renders := renders w;
     timeoutId := x; in_flight := in_flight w;
     showTimeout := showTimeout w; spinner_effect := spinner_effect w;
     localStorage := localStorage w; sessionStorage := sessionStorage w;
     location_href := location_href w; console := console w; now := now w;
     timers := timers w |}.

Definition with_in_flight (x : bool) (w : World) : World :=
  {| user := user w; loading := loading w;
     sessionCheckAttempts := sessionCheckAttempts w; renders := renders w;
     timeoutId := timeoutId w; in_flight := x;
     showTimeout := showTimeout w; spinner_effect := spinner_effect w;
     localStorage := localStorage w; sessionStorage := sessionStorage w;
     location_href := location_href w; console := console w; now := now w;
     timers := timers w |}.

Definition with_showTimeout (x : bool) (w : World) : World :=
  {| user := user w; loading := loading w;
     sessionCheckAttempts := sessionCheckAttempts w; renders := renders w;
     timeoutId := timeoutId w; in_flight := in_flight w; showTimeout := x;
     spinner_effect := spinner_effect w; localStorage := localStorage w;
     sessionStorage := sessionStorage w; location_href := location_href w;
     console := console w; now := now w; timers := timers w |}.

Definition with_spinner_effect (x : option (nat * nat * nat)) (w : World) : World :=
  {| user := user w; loading := loading w;
     sessionCheckAttempts := sessionCheckAttempts w; renders := renders w;
     timeoutId := timeoutId w; in_flight := in_flight w;
     showTimeout := showTimeout w; spinner_effect := x;
     localStorage := localStorage w; sessionStorage := sessionStorage w;
     location_href := location_href w; console := console w; now := now w;
     timers := timers w |}.

Definition with_localStorage (x : gmap string string) (w : World) : World :=
  {| user := user w; loading := loading w;
     sessionCheckAttempts := sessionCheckAttempts w; renders := renders w;
     timeoutId := timeoutId w; in_flight := in_flight w;
     showTimeout := showTimeout w; spinner_effect := spinner_effect w;
     localStorage := x; sessionStorage := sessionStorage w;
     location_href := location_href w; console := console w; now := now w;
     timers := timers w |}.

Definition with_sessionStorage (x : gmap string string) (w : World) : World :=
  {| user := user w; loading := loading w;
     sessionCheckAttempts := sessionCheckAttempts w; renders := renders w;
     timeoutId := timeoutId w; in_flight := in_flight w;
     showTimeout := showTimeout w; spinner_effect := spinner_effect w;
     localStorage := localStorage w; sessionStorage := x;
     location_href := location_href w; console := console w; now := now w;
     timers := timers w |}.

Definition with_location_href (x : string) (w : World) : World :=
  {| user := user w; loading := loading w;
     sessionCheckAttempts := sessionCheckAttempts w; renders := renders w;
     timeoutId := timeoutId w; in_flight := in_flight w;
     showTimeout := showTimeout w; spinner_effect := spinner_effect w;
     localStorage := localStorage w; sessionStorage := sessionStorage w;
     location_href := x; console := console w; now := now w;
     timers := timers w |}.

Definition with_console (x : list string) (w : World) : World :=
  {| user := user w; loading := loading w;
     sessionCheckAttempts := sessionCheckAttempts w; renders := renders w;
     timeoutId := timeoutId w; in_flight := in_flight w;
     showTimeout := showTimeout w; spinner_effect := spinner_effect w;
     localStorage := localStorage w; sessionStorage := sessionStorage w;
     location_href := location_href w; console := x; now := now w;
     timers := timers w |}.

Definition with_now (x : Z) (w : World) : World :=
  {| user := user w; loading := loading w;
     sessionCheckAttempts := sessionCheckAttempts w; renders := renders w;
     timeoutId := timeoutId w; in_flight := in_flight w;
     showTimeout := showTimeout w; spinner_effect := spinner_effect w;
     localStorage := localStorage w; sessionStorage := sessionStorage w;
     location_href := location_href w; console := console w; now := x;
     timers := timers w |}.

Definition with_timers (x : Timers.Queue Callback) (w : World) : World :=
  {| user := user w; loading := loading w;
     sessionCheckAttempts := sessionCheckAttempts w; renders := renders w;
     timeoutId := timeoutId w; in_flight := in_flight w;
     showTimeout := showTimeout w; spinner_effect := spinner_effect w;
     localStorage := localStorage w; sessionStorage := sessionStorage w;
     location_href := location_href w; console := console w; now := now w;
     timers := x |}.

(** *** State setters: a setter that changes the state renders the
    provider again. *)

Definition rerender (w : World) : World := with_renders (S (renders w)) w.

Definition setUser (u : option Farmer) (w : World) : World :=
  match u, user w with
  | None, None => w
  | _, _ => rerender (with_user u w)
  end.

Definition setLoading (b : bool) (w : World) : World :=
  if Bool.eqb b (loading w) then w else rerender (with_loading b w).

Definition setSessionCheckAttempts (f : Z -> Z) (w : World) : World :=
  let n := f (sessionCheckAttempts w) in
  if n =? sessionCheckAttempts w then w
  else rerender (with_sessionCheckAttempts n w).

Definition console_log (msg : string) (w : World) : World :=
  with_console (console w ++ [msg]) w.

Definition setTimeout (cb : Callback) (delay : Z) (w : World) : nat * World :=
  let '(id, q) := Timers.setTimeout cb delay (now w) (timers w) in
  (id, with_timers q w).

Definition clearTimeout (id : option nat) (w : World) : World :=
  with_timers (Timers.clearTimeout id (timers w)) w.

(** *** AuthContext.tsx *)

(** Lines 30-35. *)
Definition clearSession (w : World) : World :=
  let w := setUser None w in
  let w := setLoading false w in
  let w := with_localStorage ∅ w in
  let w := with_sessionStorage ∅ w in
  w.

(** Lines 37-42. *)
Definition handleSessionError (w : World) : World :=
  let w := console_log "Session error detected, clearing session and redirecting to home" w in
  let w := clearSession w in
  with_location_href "/" w.

(** How one session check ends when it does not hang. *)
Inductive SessionCheck :=
| GetSessionRejected (e : string)
| NoSession
| FarmerFound (farmer : Farmer)
| FarmerMissing
| FarmersQueryRejected (e : string).

(** [checkUser] up to its first [await], lines 49-56. *)
Definition checkUser_start (w : World) : World :=
  let '(id, w) := setTimeout SessionCheckTimeout 10000 w in
  let w := with_timeoutId (Some id) w in
  with_in_flight true w.

(** The [catch] block, lines 78-95.  [captured] is the value of
    [sessionCheckAttempts] in the scope of the closure. *)
Definition checkUser_catch (captured : Z) (e : string) (w : World) : World :=
  let w := clearTimeout (timeoutId w) w in
  let w := console_log ("Session check error: " ++ e) w in
  let w := setSessionCheckAttempts (fun prev => prev + 1) w in
  if MAX_SESSION_CHECK_ATTEMPTS <=? captured then
    let w := console_log "Max session check attempts reached, clearing session" w in
    handleSessionError w
  else
    snd (setTimeout RetryCheck 2000 w).

(** [checkUser] from the first [await] on, lines 56-95. *)
Definition checkUser_settle (captured : Z) (o : SessionCheck) (w : World) : World :=
  let w := with_in_flight false w in
  match o with
  | GetSessionRejected e => checkUser_catch captured e w
  | NoSession =>
      let w := clearTimeout (timeoutId w) w in
      let w := setUser None w in
      setLoading false w
  | FarmerFound farmer =>
      let w := clearTimeout (timeoutId w) w in
      let w := setUser (Some farmer) w in
      let w := setSessionCheckAttempts (fun _ => 0) w in
      setLoading false w
  | FarmerMissing =>
      let w := clearTimeout (timeoutId w) w in
      checkUser_catch captured "Farmer data not found" w
  | FarmersQueryRejected e =>
      let w := clearTimeout (timeoutId w) w in
      checkUser_catch captured e w
  end.

(** [signOut], lines 176-185: what [supabase.auth.signOut()] settles
    to is [{ error }] or a rejection. *)
Definition signOut (o : Outcome (option string) string) (w : World) : World :=
  let w :=
    match o with
    | Resolved None => w
    | Resolved (Some error) => console_log ("Error during sign out: " ++ error) w
    | Rejected e => console_log ("Error during sign out: " ++ e) w
    end in
  clearSession w.

(** [signUp], lines 159-169.  The requests sent to the external
    service are recorded. *)
Inductive Request :=
| AuthSignUp (credentials : gmap string Value)
| InsertInto (table : string) (rows : list (gmap string Value)).

(** [{ ...src }] laid over the properties written before it. *)
Definition spread (src earlier : gmap string Value) : gmap string Value :=
  src ∪ earlier.

Definition signUp (email password : string) (userData : gmap string Value)
           (auth_reply insert_reply : Outcome (option string) string)
  : Outcome unit string * list Request :=
  let credentials :=
    <["password" := VStr password]> (<["email" := VStr email]> ∅) in
  match auth_reply with
  | Rejected e => (Rejected e, [AuthSignUp credentials])
  | Resolved (Some error) => (Rejected error, [AuthSignUp credentials])
  | Resolved None =>
      let row :=
        spread userData
               (<["password" := VStr password]> (<["email" := VStr email]> ∅)) in
      let sent := [AuthSignUp credentials; InsertInto "farmers" [row]] in
      match insert_reply with
      | Rejected e => (Rejected e, sent)
      | Resolved (Some insertError) => (Rejected insertError, sent)
      | Resolved None => (Resolved tt, sent)
      end
  end.

(** *** LoadingSpinner.tsx *)

(** The effect body, lines 9-19. *)
Definition spinner_effect_run (w : World) : World :=
  let '(hintId, w) := setTimeout ShowTimeoutMessage 8000 w in
  let '(forceRedirectId, w) := setTimeout ForceRedirect 12000 w in
  with_spinner_effect (Some (renders w, hintId, forceRedirectId)) w.

(** The effect's cleanup, lines 21-24. *)
Definition spinner_effect_cleanup (w : World) : World :=
  match spinner_effect w with
  | Some (_, hintId, forceRedirectId) =>
      let w := clearTimeout (Some hintId) w in
      let w := clearTimeout (Some forceRedirectId) w in
      with_spinner_effect None w
  | None => w
  end.

(** What React does with the guard after the provider's state settled:
    [AppRoutes] shows [LoadingSpinner] exactly while [loading]; the
    effect depends on [clearSession], a function created afresh by
    every render of the provider (AuthContext.tsx, line 30). *)
Definition commit (w : World) : World :=
  if loading w then
    match spinner_effect w with
    | None => spinner_effect_run (with_showTimeout false w)
    | Some (dep, _, _) =>
        if Nat.eqb dep (renders w) then w
        else spinner_effect_run (spinner_effect_cleanup w)
    end
  else
    with_showTimeout false (spinner_effect_cleanup w).

(** A timer's callback. *)
Definition fire (captured : Z) (cb : Callback) (w : World) : World :=
  match cb with
  | SessionCheckTimeout =>
      let w := console_log "Session check timeout, clearing session" w in
      handleSessionError w
  | RetryCheck =>
      if captured <? MAX_SESSION_CHECK_ATTEMPTS then checkUser_start w else w
  | ShowTimeoutMessage => with_showTimeout true w
  | ForceRedirect =>
      let w := console_log "Loading timeout reached, clearing session and redirecting" w in
      let w := clearSession w in
      with_location_href "/" w
  end.

(** *** The event loop *)

(** [Settle dt o]: the suspended session check settles [dt]
    milliseconds from now, before any timer is due.  [Fire]: the next
    timer fires. *)
Inductive Event :=
| Settle (dt : Z) (o : SessionCheck)
| Fire.

Definition none_due_before (t : Z) (w : World) : bool :=
  forallb (fun tm => t <? Timers.due tm) (Timers.pending (timers w)).

Definition step (captured : Z) (ev : Event) (w : World) : option World :=
  match ev with
  | Settle dt o =>
      if in_flight w && (0 <=? dt) && none_due_before (now w + dt) w then
        Some (commit (checkUser_settle captured o (with_now (now w + dt) w)))
      else None
  | Fire =>
      match Timers.earliest (Timers.pending (timers w)) with
      | Some tm =>
          let w := with_now (Z.max (now w) (Timers.due tm)) w in
          let w := with_timers (Timers.remove tm (timers w)) w in
          Some (commit (fire captured (Timers.callback tm) w))
      | None => None
      end
  end.

Fixpoint run (captured : Z) (evs : list Event) (w : World) : option World :=
  match evs with
  | [] => Some w
  | ev :: evs' =>
      match step captured ev w with
      | Some w' => run captured evs' w'
      | None => None
      end
  end.

(** The page as it loads: [useState] initial values, nothing mounted. *)
Definition page_load (ls ss : gmap string string) (href : string) : World :=
  {| user := None; loading := true; sessionCheckAttempts := 0; renders := 0;
     timeoutId := None; in_flight := false; showTimeout := false;
     spinner_effect := None; localStorage := ls; sessionStorage := ss;
     location_href := href; console := []; now := 0;
     timers := Timers.empty |}.

(** The first commit: the guard mounts and the provider's effect (deps
    [[]]) runs once, calling [checkUser]; the closures it creates see
    the [sessionCheckAttempts] of this first render. *)
Definition mount (w : World) : Z * World :=
  (sessionCheckAttempts w, checkUser_start (commit w)).

End Session.

(** ** The specification's own notions

  Definitions that follow the wording of the specification; the
  theorems compare them with the functions of the page. *)

Module Spec.
Import JS Dashboard.








(** The crop-health donut of the specification: one "No Data" slice of
    100 for no treatments; otherwise the "Treated" share
    [round (completed / total * 100)] and the remainder, without the
    slices whose value is 0. *)
Definition treated_share (treatments : list Treatment) : Z :=
  Math_round ((inject_Z (count completed treatments)
               / inject_Z (Z.of_nat (length treatments))) * 100)%Q.

Definition donut (treatments : list Treatment) : list Slice :=
  match treatments with
  | [] => [ {| name := "No Data"; value := 100; fill := "#9CA3AF" |} ]
  | _ :: _ =>
      List.filter (fun s => negb (value s =? 0))
        [ {| name := "Treated"; value := treated_share treatments;
             fill := "#10B981" |};
          {| name := "Needs Treatment"; value := 100 - treated_share treatments;
             fill := "#EF4444" |} ]
  end.

(** A fetch cycle leaves the four dashboard fields as they were. *)
Definition dashboard_unchanged (before after : State) : Prop :=
  stats after = stats before
  /\ lands after = lands before
  /\ treatments after = treatments before
  /\ diagnoses after = diagnoses before.

(** A query that fails the way the external service reports failures:
    it resolves with no data and an error. *)
Definition failed {A} (message : string) : Query A :=
  Resolved {| data := None; error := Some message |}.

Definition succeeded {A} (rows : list A) : Query A :=
  Resolved {| data := Some rows; error := None |}.

(** A dashboard that shows one land and one treatment. *)
Definition showing_one_land : State :=
  {| stats := {| totalLands := 1; totalAcres := 5; activeTreatments := 1;
                 completedTreatments := 0; averageDiseasePercentage := 12 |};
     lands := [ {| land_id := "7"; location := "North field"; acres := 5 |} ];
     treatments := [ {| pesticide_name := "Neem Oil"; scheduled_date := 0;
                        completed := false |} ];
     diagnoses := [];
     console := [] |}.

Definition farmer_ravi : Farmer :=
  {| farmer_id := "f1"; farmer_name := "Ravi";
     farmer_email := "ravi@example.org"; farmer_profile := ∅ |}.

(** The external service is down for the [lands] table only. *)
Definition lands_query_fails : Backend :=
  {| from_lands := fun _ => failed "connection refused";
     from_plants := fun _ => succeeded [];
     from_treatment_schedules :=
       fun _ => succeeded [ {| pesticide_name := "Neem Oil"; scheduled_date := 0;
                               completed := false |} ];
     from_plant_diagnosis := fun _ => succeeded [] |}.













(** Pesticide usage as the specification words it: one group per first
    word of [pesticide_name], in the order in which the words first
    appear; a group's effectiveness is
    [round (completed / used * 100)]; the first six groups. *)
Definition group_key (t : Treatment) : string := first_word (pesticide_name t).

Fixpoint first_occurrences (keys : list string) : list string :=
  match keys with
  | [] => []
  | k :: keys' =>
      k :: List.filter (fun k' => negb (String.eqb k' k)) (first_occurrences keys')
  end.

Definition group_of (k : string) (treatments : list Treatment) : list Treatment :=
  List.filter (fun t => String.eqb (group_key t) k) treatments.

Definition group_row (treatments : list Treatment) (k : string) : UsageRow :=
  let group := group_of k treatments in
  let usedCount := Z.of_nat (length group) in
  {| pesticide := k;
     row_used := usedCount;
     effectiveness :=
       Math_round ((inject_Z (count completed group) / inject_Z usedCount) * 100)%Q |}.

Definition claimed_usage (treatments : list Treatment) : list UsageRow :=
  firstn 6 (map (group_row treatments)
                (first_occurrences (map group_key treatments))).


Definition treatment (pesticide : string) (done : bool) : Treatment :=
  {| pesticide_name := pesticide; scheduled_date := 0; completed := done |}.



(** *** Session scenarios *)

(** The ways in which a session check fails: the session lookup is
    rejected, the session has no profile row, or the profile query is
    rejected. *)
Inductive Failure :=
| LookupRejected (e : string)
| ProfileMissing
| ProfileQueryRejected (e : string).

Definition outcome_of (f : Failure) : Session.SessionCheck :=
  match f with
  | LookupRejected e => Session.GetSessionRejected e
  | ProfileMissing => Session.FarmerMissing
  | ProfileQueryRejected e => Session.FarmersQueryRejected e
  end.

Definition logged (f : Failure) : string :=
  match f with
  | LookupRejected e => "Session check error: " ++ e
  | ProfileMissing => "Session check error: Farmer data not found"
  | ProfileQueryRejected e => "Session check error: " ++ e
  end.

(** One failed session check and the retry that follows it: the check
    fails one second after it was issued, and the retry timer fires. *)
Definition failed_check (f : Failure) : list Session.Event :=
  [Session.Settle 1000 (outcome_of f); Session.Fire].

(** Consecutive failed session checks. *)
Definition failed_checks (fs : list Failure) : list Session.Event :=
  flat_map failed_check fs.

(** The session is reset: no user, not loading, both stores empty. *)
Definition session_cleared (w : Session.World) : Prop :=
  Session.user w = None
  /\ Session.loading w = false
  /\ Session.localStorage w = ∅
  /\ Session.sessionStorage w = ∅.

(** The rows that a list of requests inserts into a table. *)
Definition inserted_into (table : string) (sent : list Session.Request)
  : list (gmap string JS.Value) :=
  flat_map (fun r => match r with
                     | Session.InsertInto t rows =>
                         if String.eqb t table then rows else []
                     | Session.AuthSignUp _ => []
                     end) sent.

(** The two shapes of the world in the retry loop.  [retrying]: a
    session check is suspended, its timeout and the guard's two timers
    are pending.  [backing_off]: the check has failed, the retry timer
    and the guard's two timers are pending. *)
Definition retrying (n a : nat) (T D1 D2 D3 : Z) (ls ss : gmap string string)
           (href : string) (log : list string) : Session.World :=
  {| Session.user := None; Session.loading := true;
     Session.sessionCheckAttempts := Z.of_nat n;
     Session.renders := n; Session.timeoutId := Some (S (S a));
     Session.in_flight := true; Session.showTimeout := false;
     Session.spinner_effect := Some (n, a, S a);
     Session.localStorage := ls; Session.sessionStorage := ss;
     Session.location_href := href; Session.console := log;
     Session.now := T;
     Session.timers :=
       {| Timers.next_id := S (S (S a));
          Timers.pending :=
            [ {| Timers.timer_id := a; Timers.due := D1;
                 Timers.callback := Session.ShowTimeoutMessage |};
              {| Timers.timer_id := S a; Timers.due := D2;
                 Timers.callback := Session.ForceRedirect |};
              {| Timers.timer_id := S (S a); Timers.due := D3;
                 Timers.callback := Session.SessionCheckTimeout |} ] |} |}.

Definition backing_off (n a b : nat) (T : Z) (ls ss : gmap string string)
           (href : string) (log : list string) : Session.World :=
  {| Session.user := None; Session.loading := true;
     Session.sessionCheckAttempts := Z.of_nat n;
     Session.renders := n; Session.timeoutId := Some b;
     Session.in_flight := false; Session.showTimeout := false;
     Session.spinner_effect := Some (n, S a, S (S a));
     Session.localStorage := ls; Session.sessionStorage := ss;
     Session.location_href := href; Session.console := log;
     Session.now := T;
     Session.timers :=
       {| Timers.next_id := S (S (S a));
          Timers.pending :=
            [ {| Timers.timer_id := a; Timers.due := T + 2000;
                 Timers.callback := Session.RetryCheck |};
              {| Timers.timer_id := S a; Timers.due := T + 8000;
                 Timers.callback := Session.ShowTimeoutMessage |};
              {| Timers.timer_id := S (S a); Timers.due := T + 12000;
                 Timers.callback := Session.ForceRedirect |} ] |} |}.

(** The guard keeps waiting: still loading, no hint, nothing cleared,
    no navigation. *)
Definition still_waiting (ls ss : gmap string string) (href : string)
           (w : Session.World) : Prop :=
  Session.user w = None
  /\ Session.loading w = true
  /\ Session.showTimeout w = false
  /\ Session.localStorage w = ls
  /\ Session.sessionStorage w = ss
  /\ Session.location_href w = href.

End Spec.

(** ** The rest of the provider: auth-change notifications, sign-in,
    and the guard's button *)

Module AuthEvents.
Import JS Session.

(** The [session] handed to the auth-change handler: [session.user],
    when present, is known by its email. *)
Record AuthSession := { session_user : option string }.

(** What the handler's query on [farmers] settles to:
    [{ data: farmer, error }] or a rejection. *)
Inductive FarmerLookup :=
| FarmerRow (farmer : option Farmer) (error : option string)
| FarmerRowRejected (e : string).

(** The handler passed to [onAuthStateChange], AuthContext.tsx lines
    101-132.  Nothing is written before its only [await], so the handler
    acts at the moment the lookup settles. *)
Definition onAuthStateChange (event : string) (session : option AuthSession)
           (lookup : FarmerLookup) (w : World) : World :=
  if String.eqb event "SIGNED_OUT"
     || match session with None => true | Some _ => false end
  then
    let w := setUser None w in
    setLoading false w
  else
    match session with
    | Some {| session_user := Some _ |} =>
        match lookup with
        | FarmerRowRejected e =>
            let w := console_log ("Auth state change error: " ++ e) w in
            handleSessionError w
        | FarmerRow (Some farmer) None =>
            let w := setUser (Some farmer) w in
            let w := setSessionCheckAttempts (fun _ => 0) w in
            setLoading false w
        | FarmerRow _ _ =>
            let w := console_log "Error fetching farmer data:" w in
            handleSessionError w
        end
    | _ =>
        let w := setUser None w in
        setLoading false w
    end.

(** [signIn], lines 171-174: one request, whose error is thrown. *)
Definition signIn (email password : string)
           (reply : Outcome (option string) string)
  : Outcome unit string * gmap string Value :=
  let credentials :=
    <["password" := VStr password]> (<["email" := VStr email]> ∅) in
  match reply with
  | Rejected e => (Rejected e, credentials)
  | Resolved (Some error) => (Rejected error, credentials)
  | Resolved None => (Resolved tt, credentials)
  end.

(** The button of the guard's hint, LoadingSpinner.tsx lines 37-45. *)
Definition go_home_now (w : World) : World :=
  let w := clearSession w in
  with_location_href "/" w.

(** Everything that can happen to the page: an event of the loop, an
    auth-change notification whose handler completes [dt] milliseconds
    from now (before any timer is due), a click on the hint's button
    (rendered only while the hint is shown), a call of [signOut]. *)
Inductive Action :=
| Loop (ev : Event)
| AuthChange (dt : Z) (event : string) (session : option AuthSession)
             (lookup : FarmerLookup)
| ClickGoHome
| CallSignOut (dt : Z) (o : Outcome (option string) string).

Definition act (captured : Z) (a : Action) (w : World) : option World :=
  match a with
  | Loop ev => step captured ev w
  | AuthChange dt event session lookup =>
      if (0 <=? dt) && none_due_before (now w + dt) w then
        Some (commit (onAuthStateChange event session lookup
                                        (with_now (now w + dt) w)))
      else None
  | ClickGoHome =>
      if loading w && showTimeout w then Some (commit (go_home_now w))
      else None
  | CallSignOut dt o =>
      if (0 <=? dt) && none_due_before (now w + dt) w then
        Some (commit (signOut o (with_now (now w + dt) w)))
      else None
  end.

Fixpoint perform (captured : Z) (acts : list Action) (w : World) : option World :=
  match acts with
  | [] => Some w
  | a :: acts' =>
      match act captured a w with
      | Some w' => perform captured acts' w'
      | None => None
      end
  end.

(** The timers owned by the loading guard. *)
Definition is_guard (cb : Callback) : bool :=
  match cb with
  | ShowTimeoutMessage | ForceRedirect => true
  | SessionCheckTimeout | RetryCheck => false
  end.

(** Every pending timer was handed out by [setTimeout], and the guard's
    timers are the two whose ids its effect holds. *)
Definition guard_owned (w : World) : Prop :=
  Forall (fun t => (Timers.timer_id t < Timers.next_id (timers w))%nat)
         (Timers.pending (timers w))
  /\ match spinner_effect w with
     | Some (_, hintId, forceRedirectId) =>
         (hintId < Timers.next_id (timers w))%nat
         /\ (forceRedirectId < Timers.next_id (timers w))%nat
         /\ Forall (fun t => is_guard (Timers.callback t) = true ->
                             Timers.timer_id t = hintId
                             \/ Timers.timer_id t = forceRedirectId)
                   (Timers.pending (timers w))
     | None =>
         Forall (fun t => is_guard (Timers.callback t) = false)
                (Timers.pending (timers w))
     end.

(** Two worlds with the same timers and the same guard effect. *)
Definition same_timers (w w' : World) : Prop :=
  timers w' = timers w /\ spinner_effect w' = spinner_effect w.

(** Two worlds with the same user and the same loading flag. *)
Definition same_session (w w' : World) : Prop :=
  user w' = user w /\ loading w' = loading w.

(** An operation ended with no user, or not loading, or without
    touching either. *)
Definition resolves_or_keeps (w w' : World) : Prop :=
  user w' = None \/ loading w' = false \/ same_session w w'.

(** What holds between two actions. *)
Definition settled (w : World) : Prop :=
  guard_owned w
  /\ (loading w = false -> spinner_effect w = None /\ showTimeout w = false)
  /\ (user w <> None -> loading w = false).


(** Sample data. *)
Definition farmer_asha : Farmer :=
  {| farmer_id := "f7"; farmer_name := "Asha";
     farmer_email := "asha@example.org"; farmer_profile := ∅ |}.

Definition session_of_asha : option AuthSession :=
  Some {| session_user := Some "asha@example.org" |}.

End AuthEvents.

(** ** What the dashboard page renders from its state *)

Module DashboardView.
Import JS Dashboard.

(** [landData], lines 88-92: a bar per land; the fields [name] and
    [acres] of a bar are [bar_name] and [bar_acres] here.  A character of
    [location] stands for one UTF-16 code unit. *)
Record LandBar := { bar_name : string; bar_acres : Q; fullName : string }.

Definition landData (lands : list Land) : list LandBar :=
  map (fun land =>
         {| bar_name :=
              if (10 <? String.length (location land))%nat
              then String.substring 0 10 (location land) ++ "..."
              else location land;
            bar_acres := acres land;
            fullName := location land |})
      lands.

(** The "Success Rate" tile, line 451. *)
Definition success_rate (st : Stats) (treatments : list Treatment) : Z :=
  if 0 <? Z.of_nat (length treatments)
  then Math_round ((inject_Z (completedTreatments st)
                    / inject_Z (Z.of_nat (length treatments))) * 100)%Q
  else 0.

(** "Upcoming This Week", lines 461-484: [now] is the instant of
    [new Date()], one instant for all the treatments of a render. *)
Definition WEEK_MS : Z := 7 * 24 * 60 * 60 * 1000.

Definition due_this_week (now : Z) (t : Treatment) : bool :=
  (now <=? scheduled_date t)
  && (scheduled_date t <=? now + WEEK_MS)
  && negb (completed t).

Definition upcoming_this_week (now : Z) (treatments : list Treatment)
  : list Treatment :=
  firstn 3 (List.filter (due_this_week now) treatments).

(** Whether "No treatments scheduled this week" is shown. *)
Definition no_treatments_this_week (now : Z) (treatments : list Treatment) : bool :=
  (length (List.filter (due_this_week now) treatments) =? 0)%nat.

(** The "Upcoming Treatments" card, lines 586-612: rendered only when
    there is a treatment at all. *)
Definition upcoming_treatments (treatments : list Treatment)
  : option (list Treatment) :=
  if 0 <? Z.of_nat (length treatments)
  then Some (firstn 5 (List.filter (fun t => negb (completed t)) treatments))
  else None.

(** A treatment together with the text of its [scheduled_date], which
    the 7-day series reads as a string. *)
Record Dated := { scheduled_date_text : string; dated : Treatment }.

(** [s.split('T')[0]]: the characters before the first ['T']. *)
Fixpoint date_part (s : string) : string :=
  match s with
  | EmptyString => EmptyString
  | String c s' => if Ascii.eqb c "T" then EmptyString else String c (date_part s')
  end.

(** A bar of the 7-day series; [date] keeps the ISO date that the source
    formats with [toLocaleDateString]. *)
Record ProgressBar := {
  progress_date : string;
  progress_completed : Z;
  pending : Z;
  total : Z
}.

(** [generateTreatmentProgress], lines 107-120, on the seven ISO dates
    [last7Days] that lines 101-105 produce. *)
Definition generateTreatmentProgress (last7Days : list string)
           (treatments : list Dated) : list ProgressBar :=
  map (fun date =>
         let dayTreatments :=
           List.filter (fun t => String.eqb (date_part (scheduled_date_text t)) date)
                       treatments in
         let completedCount := count (fun t => completed (dated t)) dayTreatments in
         let total := Z.of_nat (length dayTreatments) in
         {| progress_date := date;
            progress_completed := completedCount;
            pending := total - completedCount;
            total := total |})
      last7Days.

(** Whether the 7-day chart is drawn, line 297:
    [treatmentProgressData.some(d => d.total > 0)]. *)
Definition progress_chart_shown (bars : list ProgressBar) : bool :=
  existsb (fun d => 0 <? total d) bars.

(** Treatments in ascending order of [scheduled_date], as the query of
    lines 47-51 asks for them. *)
Definition ascending (treatments : list Treatment) : Prop :=
  StronglySorted (fun a b => scheduled_date a <= scheduled_date b) treatments.

Definition sum_values (slices : list Slice) : Z :=
  fold_right (fun s acc => value s + acc) 0 slices.

Definition sum_totals (bars : list ProgressBar) : Z :=
  fold_right (fun d acc => total d + acc) 0 bars.

(** A backend whose four queries resolve. *)
Definition resolving (l : Response Land) (p : Response Plant)
           (t : Response Treatment) (d : Response Diagnosis) : Backend :=
  {| from_lands := fun _ => Resolved l;
     from_plants := fun _ => Resolved p;
     from_treatment_schedules := fun _ => Resolved t;
     from_plant_diagnosis := fun _ => Resolved d |}.



(** Sample data. *)
Definition sample_dated : list Dated :=
  [ {| scheduled_date_text := "2024-05-10T18:00:00+00:00";
       dated := {| pesticide_name := "Neem Oil"; scheduled_date := 0;
                   completed := true |} |};
    {| scheduled_date_text := "2024-05-10";
       dated := {| pesticide_name := "Sulfur Dust"; scheduled_date := 0;
                   completed := false |} |};
    {| scheduled_date_text := "2024-04-01";
       dated := {| pesticide_name := "Neem Oil"; scheduled_date := 0;
                   completed := true |} |} ].

End DashboardView.

(** ** The route table of the application shell *)

Module Routes.

Inductive Page :=
| HomePage | AuthPage | DashboardPage | CropDiagnosis | Crops
| Schedules | Pesticides | Profile.

(** The entries of [<Routes>], by the path they match; [NoMatch] is the
    catch-all ["*"]. *)
Inductive Route :=
| Root              (* "/" *)
| Auth              (* "/auth" *)
| DashboardRoute    (* "/dashboard" *)
| CropDiagnosisRoute
| CropsRoute
| SchedulesRoute
| PesticidesRoute
| ProfileRoute
| NoMatch.

(** What a route renders: a page, a page wrapped in [ProtectedRoute]
    and [Layout], a [Navigate] to another path, or the loading screen. *)
Inductive Element :=
| Render (p : Page)
| Protected (p : Page)
| Navigate (to : Route)
| Spinner.

(** The [element] of each route of [AppRoutes]. *)
Definition element (user : option Farmer) (r : Route) : Element :=
  match r with
  | Root =>
      match user with None => Render HomePage | Some _ => Navigate DashboardRoute end
  | Auth =>
      match user with None => Render AuthPage | Some _ => Navigate DashboardRoute end
  | DashboardRoute => Protected DashboardPage
  | CropDiagnosisRoute => Protected CropDiagnosis
  | CropsRoute => Protected Crops
  | SchedulesRoute => Protected Schedules
  | PesticidesRoute => Protected Pesticides
  | ProfileRoute => Protected Profile
  | NoMatch => Navigate Root
  end.

(** [AppRoutes]: the loading screen while [loading], the route table
    otherwise. *)
Definition AppRoutes (user : option Farmer) (loading : bool) (r : Route) : Element :=
  if loading then Spinner else element user r.

(** Rendering a route and following its [Navigate] elements, at most
    [redirects] times. *)
Fixpoint follow (redirects : nat) (user : option Farmer) (loading : bool)
         (r : Route) : option Element :=
  match AppRoutes user loading r with
  | Navigate to =>
      match redirects with
      | O => None
      | S n => follow n user loading to
      end
  | e => Some e
  end.

(** What a world of the session provider shows at a route. *)
Definition screen (w : Session.World) (r : Route) : option Element :=
  follow 2 (Session.user w) (Session.loading w) r.

End Routes.

(** Facts on [Math_round] used by the dashboard proofs. *)
Section MathRound.
Import JS.

Lemma Math_round_comp (x y : Q) : (x == y)%Q -> Math_round x = Math_round y.
Proof.
  intros E. unfold Math_round. apply Qfloor_comp. now rewrite E.
Qed.


(** The quotient of two integers, rounded: [floor ((2a + b) / 2b)]. *)
Lemma Math_round_ratio (a : Z) (b : positive) :
  Math_round (a # b) = (2 * a + Z.pos b) / (2 * Z.pos b).
Proof.
  unfold Math_round, Qfloor, Qplus; cbn.
  f_equal; lia.
Qed.


End MathRound.

(** The numbers quoted by the specification are the same in binary64
    arithmetic; an exact tie is where the two can part. *)
Lemma binary64_quoted_percentages :
  Binary64.percentage 2 3 = 67
  /\ Binary64.percentage 2 2 = 100
  /\ Binary64.percentage 1 2 = 50
  /\ Binary64.rounded_quotient 120 3 = 40.
Proof. vm_compute. repeat split; reflexivity. Qed.

Lemma binary64_tie_rounds_down :
  Binary64.percentage 29 200 = 14
  /\ JS.Math_round ((inject_Z 29 / inject_Z 200) * 100)%Q = 15.
Proof. vm_compute. split; reflexivity. Qed.

(** ** Dashboard statistics *)

Section DashboardStats.
Import JS Dashboard Spec.

Lemma filter_partition_length {A} (p : A -> bool) (l : list A) :
  (length (List.filter (fun x => negb (p x)) l) + length (List.filter p l))%nat
  = length l.
Proof.
  induction l as [|x l IH]; cbn; [reflexivity|].
  destruct (p x); cbn; lia.
Qed.

Lemma count_nonneg {A} (p : A -> bool) (l : list A) : 0 <= count p l.
Proof. unfold count. lia. Qed.

Lemma count_le_length {A} (p : A -> bool) (l : list A) :
  count p l <= Z.of_nat (length l).
Proof.
  unfold count. pose proof (List.filter_length_le p l). lia.
Qed.

(** C9. Over any fetched treatment set (also the [null] one), the
    derived active count plus the derived completed count is the number
    of fetched treatment records; and after a fetch cycle whose four
    queries resolve, the two stored counts add up to the number of
    stored treatments. *)
Theorem active_plus_completed_is_total :
  (forall treatmentsData : option (list Treatment),
      calc_activeTreatments treatmentsData
      + calc_completedTreatments treatmentsData
      = length_or_zero treatmentsData)
  /\ (forall u st (l : Response Land) (p : Response Plant)
             (t : Response Treatment) (d : Response Diagnosis),
         let db := {| from_lands := fun _ => Resolved l;
                      from_plants := fun _ => Resolved p;
                      from_treatment_schedules := fun _ => Resolved t;
                      from_plant_diagnosis := fun _ => Resolved d |} in
         let st' := fetchDashboardData (Some u) db st in
         activeTreatments (stats st') + completedTreatments (stats st')
         = Z.of_nat (length (treatments st'))).
Proof.
  assert (H : forall td : option (list Treatment),
             calc_activeTreatments td + calc_completedTreatments td
             = length_or_zero td).
  { intros [l|]; cbn; [|reflexivity].
    unfold count. pose proof (filter_partition_length completed l). lia. }
  split; [exact H|].
  intros u st l p t d. cbn. rewrite H. now destruct (data t).
Qed.

(** *** Average disease percentage *)








End DashboardStats.

(** ** Crop-health donut *)

Section CropHealth.
Import JS Dashboard Spec.

(** A percentage [round (c / t * 100)] of integers, in integer terms. *)
Lemma percentage_value (c t : Z) :
  0 < t ->
  Math_round ((inject_Z c / inject_Z t) * 100)%Q = (200 * c + t) / (2 * t).
Proof.
  intros Ht.
  rewrite (Math_round_comp _ ((100 * c) # (Z.to_pos t))).
  - rewrite Math_round_ratio, Z2Pos.id by exact Ht. f_equal; lia.
  - destruct t as [|t|t]; try lia.
    unfold Qeq, Qdiv, Qmult, Qinv, inject_Z; cbn. lia.
Qed.

Lemma percentage_range (c t : Z) :
  0 <= c <= t -> 0 < t ->
  0 <= Math_round ((inject_Z c / inject_Z t) * 100)%Q <= 100.
Proof.
  intros Hc Ht. rewrite percentage_value by exact Ht. split.
  - apply Z.div_pos; lia.
  - apply Z.lt_succ_r. apply Z.div_lt_upper_bound; lia.
Qed.

Lemma treated_share_range (t : Treatment) (ts : list Treatment) :
  0 <= treated_share (t :: ts) <= 100.
Proof.
  unfold treated_share. apply percentage_range.
  - split; [apply count_nonneg | apply count_le_length].
  - cbn [length]. lia.
Qed.

Lemma calculateCropHealth_donut (treatments : list Treatment) :
  calculateCropHealth treatments = donut treatments.
Proof.
  destruct treatments as [|t ts]; [reflexivity|].
  pose proof (treated_share_range t ts) as Hr.
  unfold calculateCropHealth, donut.
  fold (treated_share (t :: ts)).
  set (r := treated_share (t :: ts)) in *.
  assert ((Z.of_nat (length (t :: ts)) =? 0) = false) as ->
      by (apply Z.eqb_neq; cbn [length]; lia).
  cbn [List.filter value app].
  destruct (Z.ltb_spec 0 r), (Z.eqb_spec r 0); try lia;
    destruct (Z.ltb_spec 0 (100 - r)), (Z.eqb_spec (100 - r) 0); try lia;
    reflexivity.
Qed.



End CropHealth.

(** ** The fetch cycle and its failures *)

Section FetchFailure.
Import JS Dashboard Spec.

(** A rejected query, whichever of the four it is, reaches the [catch]
    block before any setter ran: the message is logged and the four
    fields keep their values. *)
Lemma fetch_rejection_keeps_state (u : Farmer) (db : Backend) (st : State) :
  (exists e, from_lands db (farmer_id u) = Rejected e)
  \/ (exists l e,
         from_lands db (farmer_id u) = Resolved l
         /\ from_plants db (map land_id (or_empty (data l))) = Rejected e)
  \/ (exists l p e,
         from_lands db (farmer_id u) = Resolved l
         /\ from_plants db (map land_id (or_empty (data l))) = Resolved p
         /\ from_treatment_schedules db (farmer_id u) = Rejected e)
  \/ (exists l p t e,
         from_lands db (farmer_id u) = Resolved l
         /\ from_plants db (map land_id (or_empty (data l))) = Resolved p
         /\ from_treatment_schedules db (farmer_id u) = Resolved t
         /\ from_plant_diagnosis db (farmer_id u) = Rejected e) ->
  dashboard_unchanged st (fetchDashboardData (Some u) db st)
  /\ exists e,
      console (fetchDashboardData (Some u) db st)
      = console st ++ [("Error fetching dashboard data: " ++ e)%string].
Proof.
  unfold fetchDashboardData, dashboard_unchanged.
  intros [(e & H1) | [(l & e & H1 & H2) | [(l & p & e & H1 & H2 & H3)
                                          | (l & p & t & e & H1 & H2 & H3 & H4)]]];
    rewrite H1; cbn [bind];
    try (rewrite H2; cbn [bind]);
    try (rewrite H3; cbn [bind]);
    try (rewrite H4; cbn [bind]);
    (split; [repeat split | exists e; reflexivity]).
Qed.

Lemma fetch_rejection_keeps_state_witness :
  dashboard_unchanged showing_one_land
    (fetchDashboardData (Some farmer_ravi)
       {| from_lands := fun _ => succeeded [];
          from_plants := fun _ => Rejected "network down";
          from_treatment_schedules := fun _ => succeeded [];
          from_plant_diagnosis := fun _ => succeeded [] |}
       showing_one_land).
Proof.
  refine (proj1 (fetch_rejection_keeps_state farmer_ravi _ showing_one_land _)).
  right; left. eexists _, _. split; reflexivity.
Defined.

(** A query that resolves with [{ data: null, error }] does not reach
    the [catch] block: every setter runs, with the missing data read
    as empty. *)
Lemma fetch_error_responses_reset_state (u : Farmer) (st : State)
      (e1 e2 e3 e4 : string) :
  fetchDashboardData (Some u)
    {| from_lands := fun _ => failed e1; from_plants := fun _ => failed e2;
       from_treatment_schedules := fun _ => failed e3;
       from_plant_diagnosis := fun _ => failed e4 |} st
  = {| stats := stats initial; lands := []; treatments := [];
       diagnoses := []; console := console st |}.
Proof. reflexivity. Qed.

(** C3, at a failing fetch cycle.  When the [lands] query fails with
    an error response, whatever the other three queries resolve to,
    nothing is logged and the land list and land statistics are
    overwritten with empty values.  On a dashboard that shows one land
    the state is therefore not left as it was. *)
Theorem fetch_error_response_overwrites_state :
  (forall (u : Farmer) (st : State) (e : string) (p : Response Plant)
          (t : Response Treatment) (d : Response Diagnosis),
      let after :=
        fetchDashboardData (Some u)
          {| from_lands := fun _ => failed e;
             from_plants := fun _ => Resolved p;
             from_treatment_schedules := fun _ => Resolved t;
             from_plant_diagnosis := fun _ => Resolved d |} st in
      lands after = []
      /\ totalLands (stats after) = 0
      /\ console after = console st)
  /\ (let after := fetchDashboardData (Some farmer_ravi) lands_query_fails
                                      showing_one_land in
      lands after = []
      /\ totalLands (stats after) = 0
      /\ console after = []
      /\ ~ dashboard_unchanged showing_one_land after).
Proof.
  split.
  - intros u st e p t d. cbn. repeat split.
  - cbn. repeat split.
    intros (_ & Hlands & _). discriminate Hlands.
Qed.

End FetchFailure.

(** ** 30-day health trend *)

Section HealthTrend.
Import JS Dashboard Spec.






End HealthTrend.

(** ** Pesticide usage *)

Section PesticideUsage.
Import JS Dashboard Spec.

(** *** Own properties of the accumulator *)








(** *** First occurrences *)




Lemma existsb_eqb_In (k : string) (keys : list string) :
  existsb (String.eqb k) keys = true <-> In k keys.
Proof.
  rewrite existsb_exists. split.
  - intros (x & Hx & E). apply String.eqb_eq in E. now subst.
  - intros H. exists k. split; [exact H | apply String.eqb_refl].
Qed.

(** *** The reducer builds the groups of the specification *)















(** A first word that names a member of [Object.prototype] never
    becomes a property of the accumulator: its group is missing. *)
Lemma generatePesticideUsage_inherited_key_dropped :
  generatePesticideUsage
    [treatment "constructor grade lime" true; treatment "Neem Oil" true]
  = [ {| pesticide := "Neem"; row_used := 1; effectiveness := 100 |} ]
  /\ claimed_usage
       [treatment "constructor grade lime" true; treatment "Neem Oil" true]
     = [ {| pesticide := "constructor"; row_used := 1; effectiveness := 100 |};
         {| pesticide := "Neem"; row_used := 1; effectiveness := 100 |} ].
Proof. split; reflexivity. Qed.

End PesticideUsage.

(** ** Session provider *)

Section SessionProvider.
Import JS Session Spec.

Lemma clearSession_cleared (w : World) : session_cleared (clearSession w).
Proof.
  unfold session_cleared, clearSession, setUser, setLoading.
  destruct w as [[u|] [|] ? ? ? ? ? ? ? ? ? ? ? ?]; cbn; repeat split; reflexivity.
Qed.

(** C2. Whatever the external sign-out does - it resolves without an
    error, resolves with an error, or is rejected - [signOut] ends
    with the user set to none, [loading] false, and [localStorage] and
    [sessionStorage] empty. *)
Theorem signOut_always_clears (o : Outcome (option string) string) (w : World) :
  session_cleared (signOut o w).
Proof. unfold signOut. apply clearSession_cleared. Qed.

(** *** Sign-up *)

Lemma spread_lookup (src earlier : gmap string Value) (k : string) :
  spread src earlier !! k
  = match src !! k with Some v => Some v | None => earlier !! k end.
Proof.
  unfold spread. rewrite lookup_union.
  destruct (src !! k), (earlier !! k); reflexivity.
Qed.

Lemma signUp_success (email password : string) (userData : gmap string Value)
      (auth_reply insert_reply : Outcome (option string) string) :
  fst (signUp email password userData auth_reply insert_reply) = Resolved tt ->
  auth_reply = Resolved None /\ insert_reply = Resolved None.
Proof.
  unfold signUp.
  destruct auth_reply as [[e|]|e]; cbn; try discriminate.
  destruct insert_reply as [[e|]|e]; cbn; try discriminate.
  now split.
Qed.

(** C10, as the provider computes it.  A successful [signUp] inserts
    one row into [farmers]: the profile's fields, and the caller's
    email and plaintext password under [email] and [password] unless
    the profile has a field of that name, which then takes its
    place. *)
Theorem signUp_inserted_row (email password : string)
        (userData : gmap string Value)
        (auth_reply insert_reply : Outcome (option string) string) :
  fst (signUp email password userData auth_reply insert_reply) = Resolved tt ->
  exists row,
    inserted_into "farmers"
                  (snd (signUp email password userData auth_reply insert_reply))
    = [row]
    /\ (forall k v, userData !! k = Some v -> row !! k = Some v)
    /\ (userData !! "password" = None -> row !! "password" = Some (VStr password))
    /\ (userData !! "email" = None -> row !! "email" = Some (VStr email))
    /\ (forall k, k <> "email"%string -> k <> "password"%string ->
                  row !! k = userData !! k).
Proof.
  intros Hok. apply signUp_success in Hok as [-> ->].
  eexists. split; [reflexivity|].
  repeat split.
  - intros k v Hk. now rewrite spread_lookup, Hk.
  - intros Hk. rewrite spread_lookup, Hk. apply lookup_insert_eq.
  - intros Hk. rewrite spread_lookup, Hk.
    rewrite lookup_insert_ne by discriminate. apply lookup_insert_eq.
  - intros k Hne Hnp. rewrite spread_lookup.
    destruct (userData !! k); [reflexivity|].
    rewrite !lookup_insert_ne by congruence. apply lookup_empty.
Qed.

Lemma signUp_inserted_row_witness :
  exists row,
    inserted_into "farmers"
      (snd (signUp "asha@example.org" "s3cret" {[ "name" := VStr "Asha" ]}
                   (Resolved None) (Resolved None)))
    = [row]
    /\ row !! "password" = Some (VStr "s3cret").
Proof.
  destruct (signUp_inserted_row "asha@example.org" "s3cret"
              {[ "name" := VStr "Asha" ]} (Resolved None) (Resolved None)
              eq_refl) as (row & Hrow & _ & Hpw & _).
  exists row. split; [exact Hrow|].
  apply Hpw. apply lookup_singleton_ne. discriminate.
Defined.

(** C10, as stated, fails: a profile that carries a [password] field
    overrides the caller's password in the inserted row. *)
Lemma signUp_profile_overrides_password :
  fst (signUp "asha@example.org" "s3cret" {[ "password" := VStr "other" ]}
              (Resolved None) (Resolved None)) = Resolved tt
  /\ exists row,
      inserted_into "farmers"
        (snd (signUp "asha@example.org" "s3cret" {[ "password" := VStr "other" ]}
                     (Resolved None) (Resolved None)))
      = [row]
      /\ row !! "password" = Some (VStr "other")
      /\ row !! "password" <> Some (VStr "s3cret").
Proof.
  split; [reflexivity|]. eexists. split; [reflexivity|].
  assert (H : spread {[ "password" := VStr "other" ]}
                (<["password" := VStr "s3cret"]>
                   (<["email" := VStr "asha@example.org"]> ∅))
              !! "password" = Some (VStr "other")).
  { rewrite spread_lookup. now rewrite lookup_singleton_eq. }
  split; [exact H|]. rewrite H. discriminate.
Qed.

End SessionProvider.

(** ** The retry loop of the session check and the loading guard *)

Section RetryLoop.
Import JS Session Spec.

Ltac decide_tests :=
  repeat match goal with
    | |- context [Nat.eqb ?x ?x] => rewrite (Nat.eqb_refl x)
    | |- context [Nat.eqb ?x ?y] =>
        replace (Nat.eqb x y) with false by (symmetry; apply Nat.eqb_neq; lia)
    | |- context [Z.ltb ?x ?y] =>
        first [ replace (Z.ltb x y) with true by (symmetry; apply Z.ltb_lt; lia)
              | replace (Z.ltb x y) with false by (symmetry; apply Z.ltb_ge; lia) ]
    | |- context [Z.leb ?x ?y] =>
        first [ replace (Z.leb x y) with true by (symmetry; apply Z.leb_le; lia)
              | replace (Z.leb x y) with false by (symmetry; apply Z.leb_gt; lia) ]
    | |- context [Z.eqb ?x ?y] =>
        first [ replace (Z.eqb x y) with true by (symmetry; apply Z.eqb_eq; lia)
              | replace (Z.eqb x y) with false by (symmetry; apply Z.eqb_neq; lia) ]
    end.

(** Evaluate the record updates and list traversals, then settle the
    comparisons that are left by arithmetic. *)
Ltac world_eval :=
  cbv beta iota zeta delta
      [with_user with_loading with_sessionCheckAttempts with_renders
       with_timeoutId with_in_flight with_showTimeout with_spinner_effect
       with_localStorage with_sessionStorage with_location_href with_console
       with_now with_timers
       user loading sessionCheckAttempts renders timeoutId in_flight showTimeout
       spinner_effect localStorage sessionStorage location_href console now timers
       Timers.timer_id Timers.due Timers.callback Timers.next_id Timers.pending
       List.filter forallb negb andb fst snd];
  cbn [app];
  decide_tests;
  cbv beta iota.

Lemma run_app (captured : Z) (evs1 evs2 : list Event) (w : World) :
  run captured (evs1 ++ evs2) w
  = match run captured evs1 w with
    | Some w' => run captured evs2 w'
    | None => None
    end.
Proof.
  revert w. induction evs1 as [|ev evs1 IH]; intros w; cbn; [reflexivity|].
  destruct (step captured ev w); [apply IH | reflexivity].
Qed.

(** The closures of the mount effect see [sessionCheckAttempts = 0]. *)
Lemma mount_captures_zero (ls ss : gmap string string) (href : string) :
  mount (page_load ls ss href)
  = (0, retrying 0 1 0 8000 12000 10000 ls ss href []).
Proof. reflexivity. Qed.

(** A failed check, seen from a closure that captured 0: the counter
    in the state goes up, the provider renders again, the guard's
    effect is torn down and run again, and a retry is scheduled. *)
Lemma failed_check_backs_off (n a : nat) (T D1 D2 D3 : Z)
      (ls ss : gmap string string) (href : string) (log : list string)
      (f : Failure) :
  T + 1000 < D1 -> T + 1000 < D2 -> T + 1000 < D3 ->
  step 0 (Settle 1000 (outcome_of f))
       (retrying n a T D1 D2 D3 ls ss href log)
  = Some (backing_off (S n) (S (S (S a))) (S (S a)) (T + 1000) ls ss href
                      (log ++ [logged f])).
Proof.
  intros H1 H2 H3.
  unfold retrying, backing_off.
  unfold step, none_due_before. world_eval.
  destruct f as [e| |e]; unfold outcome_of, logged;
    unfold checkUser_settle, checkUser_catch, MAX_SESSION_CHECK_ATTEMPTS,
      clearTimeout, Timers.clearTimeout, console_log;
    world_eval; world_eval;
    unfold setSessionCheckAttempts, rerender; world_eval;
    unfold setTimeout, Timers.setTimeout; world_eval;
    unfold commit; world_eval;
    unfold spinner_effect_cleanup, clearTimeout, Timers.clearTimeout; world_eval;
    unfold spinner_effect_run, setTimeout, Timers.setTimeout; world_eval;
    rewrite Nat2Z.inj_succ; unfold Z.succ; reflexivity.
Qed.

(** The retry timer fires: the closure's test [0 < 3] passes and the
    next check is issued. *)
Lemma retry_timer_restarts (n a b : nat) (T : Z)
      (ls ss : gmap string string) (href : string) (log : list string) :
  step 0 Fire (backing_off n a b T ls ss href log)
  = Some (retrying n (S a) (T + 2000) (T + 8000) (T + 12000) (T + 2000 + 10000)
                   ls ss href log).
Proof.
  unfold retrying, backing_off.
  unfold step, Timers.earliest. world_eval. world_eval.
  unfold Timers.remove, Timers.clearTimeout. world_eval.
  unfold fire, MAX_SESSION_CHECK_ATTEMPTS. world_eval.
  unfold checkUser_start, setTimeout, Timers.setTimeout. world_eval.
  unfold commit. world_eval.
  replace (Z.max T (T + 2000)) with (T + 2000) by lia.
  reflexivity.
Qed.

Lemma retry_loop (ls ss : gmap string string) (href : string)
      (fs : list Failure) :
  forall (m a : nat) (T D1 D2 D3 : Z) (log : list string),
    T + 1000 < D1 -> T + 1000 < D2 -> T + 1000 < D3 ->
    exists a' D1' D2' D3',
      run 0 (failed_checks fs) (retrying m a T D1 D2 D3 ls ss href log)
      = Some (retrying (m + length fs) a' (T + 3000 * Z.of_nat (length fs))
                       D1' D2' D3' ls ss href (log ++ map logged fs))
      /\ T + 3000 * Z.of_nat (length fs) + 1000 < D1'
      /\ T + 3000 * Z.of_nat (length fs) + 1000 < D2'
      /\ T + 3000 * Z.of_nat (length fs) + 1000 < D3'.
Proof.
  induction fs as [|f fs IH]; intros m a T D1 D2 D3 log H1 H2 H3.
  - exists a, D1, D2, D3. cbn [failed_checks flat_map run length map].
    rewrite Nat.add_0_r, Z.mul_0_r, Z.add_0_r, app_nil_r. auto.
  - cbn [failed_checks flat_map failed_check app run].
    rewrite failed_check_backs_off by assumption.
    rewrite retry_timer_restarts.
    destruct (IH (S m) (S (S (S (S a)))) (T + 1000 + 2000)
                 (T + 1000 + 8000) (T + 1000 + 12000)
                 (T + 1000 + 2000 + 10000)
                 (log ++ [logged f]))
      as (a' & D1' & D2' & D3' & Hrun & G1 & G2 & G3); try lia.
    exists a', D1', D2', D3'.
    fold (failed_checks fs). rewrite Hrun.
    cbn [length map].
    replace (S m + length fs)%nat with (m + S (length fs))%nat by lia.
    replace (T + 1000 + 2000 + 3000 * Z.of_nat (length fs))
      with (T + 3000 * Z.of_nat (S (length fs))) in * by lia.
    rewrite <- app_assoc. cbn [app]. auto.
Qed.



(** Below the bound the [catch] block schedules a retry two seconds
    later and leaves the session alone. *)
Lemma checkUser_catch_below_bound (captured : Z) (e : string) (w : World) :
  captured < MAX_SESSION_CHECK_ATTEMPTS ->
  let w' := checkUser_catch captured e w in
  In {| Timers.timer_id := Timers.next_id (timers w);
        Timers.due := now w + 2000;
        Timers.callback := RetryCheck |}
     (Timers.pending (timers w'))
  /\ user w' = user w
  /\ loading w' = loading w
  /\ localStorage w' = localStorage w
  /\ sessionStorage w' = sessionStorage w
  /\ location_href w' = location_href w.
Proof.
  intros Hb. unfold checkUser_catch.
  apply Z.leb_gt in Hb. rewrite Hb.
  destruct w as [u l n r tid fl sh sp ls ss href log T [nid pend]].
  unfold setSessionCheckAttempts, rerender, console_log, clearTimeout,
    setTimeout, Timers.setTimeout.
  world_eval. cbn [Timers.clearTimeout Timers.next_id Timers.pending].
  repeat split.
  apply in_or_app. right.
  destruct tid; left; reflexivity.
Qed.

Lemma checkUser_catch_below_bound_witness :
  loading (checkUser_catch 0 "offline" (snd (mount (page_load ∅ ∅ "/dashboard"))))
  = true.
Proof.
  apply (checkUser_catch_below_bound 0 "offline"
           (snd (mount (page_load ∅ ∅ "/dashboard")))).
  reflexivity.
Defined.

(** C1, on the provider as written.  The closures of the mount effect
    keep reading [sessionCheckAttempts = 0], so the bound is never seen:
    after any sequence of consecutive failed session checks - four and
    more included - the counter in the state is the number of failures,
    every failure was logged, a further check is under way, and the
    session is as it was: still loading, storage untouched, no
    navigation. *)
Theorem session_check_retries_without_bound
        (ls ss : gmap string string) (href : string) (fs : list Failure) :
  exists w,
    run (fst (mount (page_load ls ss href))) (failed_checks fs)
        (snd (mount (page_load ls ss href))) = Some w
    /\ sessionCheckAttempts w = Z.of_nat (length fs)
    /\ console w = map logged fs
    /\ in_flight w = true
    /\ user w = None
    /\ loading w = true
    /\ localStorage w = ls
    /\ sessionStorage w = ss
    /\ location_href w = href.
Proof.
  rewrite mount_captures_zero. cbn [fst snd].
  destruct (retry_loop ls ss href fs 0%nat 1%nat 0 8000 12000 10000 [])
    as (a' & D1' & D2' & D3' & Hrun & _); try lia.
  eexists. split; [exact Hrun|]. cbn. repeat split; reflexivity.
Qed.

(** C4, on the guard as written.  Every failed session check renders
    the provider again and with it restarts the guard's two timers:
    along checks that fail one second after they were issued, at every
    moment - three seconds per failure after the page loaded, and one
    second later when the next check has failed - the page is still
    loading, the hint is not shown, the session is not cleared and no
    navigation has happened. *)
Theorem loading_guard_starved_by_retries
        (ls ss : gmap string string) (href : string) (fs : list Failure)
        (f : Failure) :
  (exists w,
      run (fst (mount (page_load ls ss href))) (failed_checks fs)
          (snd (mount (page_load ls ss href))) = Some w
      /\ now w = 3000 * Z.of_nat (length fs)
      /\ still_waiting ls ss href w)
  /\ (exists w,
         run (fst (mount (page_load ls ss href)))
             (failed_checks fs ++ [Settle 1000 (outcome_of f)])
             (snd (mount (page_load ls ss href))) = Some w
         /\ now w = 3000 * Z.of_nat (length fs) + 1000
         /\ still_waiting ls ss href w).
Proof.
  rewrite mount_captures_zero. cbn [fst snd].
  destruct (retry_loop ls ss href fs 0%nat 1%nat 0 8000 12000 10000 [])
    as (a' & D1' & D2' & D3' & Hrun & G1 & G2 & G3); try lia.
  split.
  - eexists. split; [exact Hrun|]. cbn. repeat split; reflexivity.
  - rewrite run_app, Hrun. cbn [run].
    rewrite failed_check_backs_off by assumption.
    eexists. split; [reflexivity|]. cbn. repeat split; reflexivity.
Qed.

(** Four failures, twelve seconds: the bound of C1 is passed and the
    guard of C4 has run out, and the page still waits. *)
Lemma four_failures_twelve_seconds :
  exists w,
    run 0 (failed_checks [LookupRejected "offline"; LookupRejected "offline";
                          ProfileMissing; LookupRejected "offline"])
        (snd (mount (page_load {[ "sb-token" := "abc" ]} ∅ "/dashboard"))) = Some w
    /\ sessionCheckAttempts w = 4
    /\ now w = 12000
    /\ still_waiting {[ "sb-token" := "abc" ]} ∅ "/dashboard" w
    /\ exists id due,
        Timers.pending (timers w)
        = [ {| Timers.timer_id := id; Timers.due := due;
               Timers.callback := ShowTimeoutMessage |};
            {| Timers.timer_id := S id; Timers.due := due + 4000;
               Timers.callback := ForceRedirect |};
            {| Timers.timer_id := S (S id); Timers.due := 22000;
               Timers.callback := SessionCheckTimeout |} ]
        /\ due = 18000.
Proof.
  eexists. split; [vm_compute; reflexivity|].
  cbn. repeat split; try reflexivity.
  exists 17%nat, 18000. split; reflexivity.
Qed.

(** *** The guard when nothing renders the provider *)

(** With a session check that hangs, the hint shows at 8 s; the
    check's own timeout then clears the session at 10 s and, as the
    guard unmounts, cancels the 12 s timer. *)
Lemma guard_hint_then_session_timeout (ls ss : gmap string string) (href : string) :
  (exists w,
      run 0 [Fire] (snd (mount (page_load ls ss href))) = Some w
      /\ now w = 8000 /\ showTimeout w = true /\ loading w = true)
  /\ (exists w,
         run 0 [Fire; Fire] (snd (mount (page_load ls ss href))) = Some w
         /\ now w = 10000 /\ session_cleared w
         /\ location_href w = "/"%string
         /\ Timers.pending (timers w) = []).
Proof.
  split; eexists; (split; [vm_compute; reflexivity|]);
    cbn; repeat split; reflexivity.
Qed.

(** After one failed check, a retry that hangs lets the restarted
    timers run out: hint at 1 + 8 s, forced clear at 1 + 12 s. *)
Lemma guard_escalates_after_last_render (ls ss : gmap string string) (href : string) :
  (exists w,
      run 0 [Settle 1000 (GetSessionRejected "offline"); Fire; Fire]
          (snd (mount (page_load ls ss href))) = Some w
      /\ now w = 9000 /\ showTimeout w = true /\ loading w = true)
  /\ (exists w,
         run 0 [Settle 1000 (GetSessionRejected "offline"); Fire; Fire; Fire]
             (snd (mount (page_load ls ss href))) = Some w
         /\ now w = 13000 /\ session_cleared w
         /\ location_href w = "/"%string).
Proof.
  split; eexists; (split; [vm_compute; reflexivity|]);
    cbn; repeat split; reflexivity.
Qed.

(** When loading ends the guard unmounts and both timers are
    cancelled. *)
Lemma guard_unmount_cancels_timers (ls ss : gmap string string) (href : string) :
  exists w,
    run 0 [Settle 1000 NoSession] (snd (mount (page_load ls ss href))) = Some w
    /\ loading w = false
    /\ spinner_effect w = None
    /\ Timers.pending (timers w) = [].
Proof.
  eexists. split; [vm_compute; reflexivity|].
  cbn. repeat split; reflexivity.
Qed.

End RetryLoop.

(** ** Invariants of the session provider and the loading guard *)

Section GuardInvariant.
Import JS Session AuthEvents.

Lemma same_timers_refl (w : World) : same_timers w w.
Proof. split; reflexivity. Qed.

Lemma same_timers_trans (w1 w2 w3 : World) :
  same_timers w1 w2 -> same_timers w2 w3 -> same_timers w1 w3.
Proof. intros [A B] [C D]. split; congruence. Qed.

Lemma guard_owned_same (w w' : World) :
  same_timers w w' -> guard_owned w -> guard_owned w'.
Proof. intros [Ht Hs]. unfold guard_owned. now rewrite Ht, Hs. Qed.

Lemma setUser_same (u : option Farmer) (w : World) : same_timers w (setUser u w).
Proof. destruct w as [[f|] ? ? ? ? ? ? ? ? ? ? ? ? ?], u; split; reflexivity. Qed.

Lemma setLoading_same (b : bool) (w : World) : same_timers w (setLoading b w).
Proof. destruct w as [? [|] ? ? ? ? ? ? ? ? ? ? ? ?], b; split; reflexivity. Qed.

Lemma setSessionCheckAttempts_same (f : Z -> Z) (w : World) :
  same_timers w (setSessionCheckAttempts f w).
Proof.
  unfold setSessionCheckAttempts.
  destruct (f (sessionCheckAttempts w) =? sessionCheckAttempts w);
    destruct w; split; reflexivity.
Qed.

Lemma console_log_same (msg : string) (w : World) : same_timers w (console_log msg w).
Proof. destruct w; split; reflexivity. Qed.

Lemma clearSession_same (w : World) : same_timers w (clearSession w).
Proof.
  unfold clearSession.
  eapply same_timers_trans; [apply setUser_same|].
  eapply same_timers_trans; [apply setLoading_same|].
  split; reflexivity.
Qed.

Lemma handleSessionError_same (w : World) : same_timers w (handleSessionError w).
Proof.
  unfold handleSessionError.
  eapply same_timers_trans; [apply console_log_same|].
  eapply same_timers_trans; [apply clearSession_same|].
  split; reflexivity.
Qed.

Lemma guard_owned_shrink (w w' : World) :
  spinner_effect w' = spinner_effect w ->
  Timers.next_id (timers w') = Timers.next_id (timers w) ->
  incl (Timers.pending (timers w')) (Timers.pending (timers w)) ->
  guard_owned w -> guard_owned w'.
Proof.
  intros Hs Hn Hincl [Hfresh Hg]. unfold guard_owned. rewrite Hs, Hn.
  assert (Hsub : forall P : Timers.Timer Callback -> Prop,
             Forall P (Timers.pending (timers w)) ->
             Forall P (Timers.pending (timers w'))).
  { intros P HP. apply List.Forall_forall. intros t Ht.
    rewrite List.Forall_forall in HP. apply HP, Hincl, Ht. }
  split; [now apply Hsub|].
  destruct (spinner_effect w) as [[[r h] f]|].
  - destruct Hg as (Hh & Hf & Hall). repeat split; auto.
  - now apply Hsub.
Qed.

Lemma clearTimeout_owned (id : option nat) (w : World) :
  guard_owned w -> guard_owned (clearTimeout id w).
Proof.
  apply guard_owned_shrink; destruct w as [? ? ? ? ? ? ? ? ? ? ? ? ? [nid pend]];
    destruct id; cbn; try reflexivity; try apply incl_refl.
  apply List.incl_filter.
Qed.

Lemma setTimeout_owned (cb : Callback) (delay : Z) (w : World) :
  is_guard cb = false ->
  guard_owned w -> guard_owned (snd (setTimeout cb delay w)).
Proof.
  intros Hcb [Hfresh Hg].
  destruct w as [? ? ? ? ? ? ? sp ? ? ? ? T [nid pend]].
  unfold guard_owned in *. cbn in *.
  split.
  - apply List.Forall_app. split.
    + eapply List.Forall_impl; [|exact Hfresh]. cbn. intros t Ht. lia.
    + constructor; [cbn; lia | constructor].
  - destruct sp as [[[r h] f]|].
    + destruct Hg as (Hh & Hf & Hall). repeat split; try lia.
      apply List.Forall_app. split; [exact Hall|].
      constructor; [cbn; congruence | constructor].
    + apply List.Forall_app. split; [exact Hg|].
      constructor; [exact Hcb | constructor].
Qed.

Lemma frame_owned (w w' : World) :
  same_timers w w' -> guard_owned w -> guard_owned w'.
Proof. apply guard_owned_same. Qed.

Lemma checkUser_start_owned (w : World) :
  guard_owned w -> guard_owned (checkUser_start w).
Proof.
  intros H. unfold checkUser_start.
  pose proof (setTimeout_owned SessionCheckTimeout 10000 w eq_refl H) as H'.
  destruct (setTimeout SessionCheckTimeout 10000 w) as [id w1]. cbn in H'.
  eapply frame_owned; [|exact H'].
  destruct w1; split; reflexivity.
Qed.

Lemma checkUser_catch_owned (captured : Z) (e : string) (w : World) :
  guard_owned w -> guard_owned (checkUser_catch captured e w).
Proof.
  intros H. unfold checkUser_catch.
  assert (H1 : guard_owned
                 (setSessionCheckAttempts (fun prev => prev + 1)
                    (console_log ("Session check error: " ++ e)
                       (clearTimeout (timeoutId w) w)))).
  { eapply frame_owned; [apply setSessionCheckAttempts_same|].
    eapply frame_owned; [apply console_log_same|].
    now apply clearTimeout_owned. }
  destruct (MAX_SESSION_CHECK_ATTEMPTS <=? captured).
  - eapply frame_owned; [apply handleSessionError_same|].
    eapply frame_owned; [apply console_log_same|]. exact H1.
  - now apply setTimeout_owned.
Qed.

Lemma with_in_flight_same (b : bool) (w : World) : same_timers w (with_in_flight b w).
Proof. destruct w; split; reflexivity. Qed.

Lemma with_now_same (t : Z) (w : World) : same_timers w (with_now t w).
Proof. destruct w; split; reflexivity. Qed.

Lemma with_showTimeout_same (b : bool) (w : World) :
  same_timers w (with_showTimeout b w).
Proof. destruct w; split; reflexivity. Qed.

Lemma with_location_href_same (h : string) (w : World) :
  same_timers w (with_location_href h w).
Proof. destruct w; split; reflexivity. Qed.

Lemma checkUser_settle_owned (captured : Z) (o : SessionCheck) (w : World) :
  guard_owned w -> guard_owned (checkUser_settle captured o w).
Proof.
  intros H. unfold checkUser_settle.
  assert (H0 : guard_owned (with_in_flight false w))
    by (eapply frame_owned; [apply with_in_flight_same | exact H]).
  destruct o as [e| |farmer| |e].
  - now apply checkUser_catch_owned.
  - eapply frame_owned; [apply setLoading_same|].
    eapply frame_owned; [apply setUser_same|].
    now apply clearTimeout_owned.
  - eapply frame_owned; [apply setLoading_same|].
    eapply frame_owned; [apply setSessionCheckAttempts_same|].
    eapply frame_owned; [apply setUser_same|].
    now apply clearTimeout_owned.
  - now apply checkUser_catch_owned, clearTimeout_owned.
  - now apply checkUser_catch_owned, clearTimeout_owned.
Qed.

Lemma fire_owned (captured : Z) (cb : Callback) (w : World) :
  guard_owned w -> guard_owned (fire captured cb w).
Proof.
  intros H. destruct cb; cbn [fire].
  - eapply frame_owned; [apply handleSessionError_same|].
    eapply frame_owned; [apply console_log_same | exact H].
  - destruct (captured <? MAX_SESSION_CHECK_ATTEMPTS);
      [now apply checkUser_start_owned | exact H].
  - eapply frame_owned; [apply with_showTimeout_same | exact H].
  - eapply frame_owned; [apply with_location_href_same|].
    eapply frame_owned; [apply clearSession_same|].
    eapply frame_owned; [apply console_log_same | exact H].
Qed.

(** *** The guard's effect *)

Lemma spinner_effect_cleanup_owned (w : World) :
  guard_owned w ->
  guard_owned (spinner_effect_cleanup w)
  /\ spinner_effect (spinner_effect_cleanup w) = None.
Proof.
  intros [Hfresh Hg].
  destruct w as [? ? ? ? ? ? ? sp ? ? ? ? T [nid pend]].
  unfold guard_owned in *. cbn in *.
  destruct sp as [[[r h] f]|]; cbn; [|auto].
  destruct Hg as (Hh & Hf & Hall).
  split; [|reflexivity]. split.
  - apply List.Forall_forall. intros t Ht.
    apply List.filter_In in Ht as [Ht _]. apply List.filter_In in Ht as [Ht _].
    rewrite List.Forall_forall in Hfresh. now apply Hfresh.
  - apply List.Forall_forall. intros t Ht.
    apply List.filter_In in Ht as [Ht Hnf]. apply List.filter_In in Ht as [Ht Hnh].
    apply negb_true_iff, Nat.eqb_neq in Hnf, Hnh.
    rewrite List.Forall_forall in Hall. specialize (Hall t Ht).
    destruct (is_guard (Timers.callback t)); [|reflexivity].
    destruct (Hall eq_refl); contradiction.
Qed.

Lemma spinner_effect_run_owned (w : World) :
  guard_owned w -> spinner_effect w = None ->
  guard_owned (spinner_effect_run w).
Proof.
  intros [Hfresh Hg] Hnone.
  destruct w as [? ? ? ? ? ? ? sp ? ? ? ? T [nid pend]].
  unfold guard_owned in *. cbn in *. subst sp.
  split.
  - rewrite <- app_assoc. apply List.Forall_app. split.
    + eapply List.Forall_impl; [|exact Hfresh]. cbn. intros t Ht. lia.
    + repeat constructor; cbn; lia.
  - split; [lia|]. split; [lia|].
    rewrite <- app_assoc. apply List.Forall_app. split.
    + eapply List.Forall_impl; [|exact Hg]. cbn. intros t Ht. congruence.
    + constructor; [intros _; left; reflexivity|].
      constructor; [intros _; right; reflexivity | constructor].
Qed.

Lemma commit_owned (w : World) : guard_owned w -> guard_owned (commit w).
Proof.
  intros H. unfold commit.
  destruct (loading w).
  - destruct (spinner_effect w) as [[[dep h] f]|] eqn:Hsp.
    + destruct (Nat.eqb dep (renders w)); [exact H|].
      destruct (spinner_effect_cleanup_owned w H) as [Hc Hn].
      now apply spinner_effect_run_owned.
    + apply spinner_effect_run_owned.
      * eapply frame_owned; [apply with_showTimeout_same | exact H].
      * destruct w; exact Hsp.
  - eapply frame_owned; [apply with_showTimeout_same|].
    apply spinner_effect_cleanup_owned, H.
Qed.

Lemma commit_not_loading (w : World) :
  loading (commit w) = false ->
  spinner_effect (commit w) = None /\ showTimeout (commit w) = false.
Proof.
  unfold commit.
  destruct w as [? [|] ? r ? ? ? [[[dep h] f]|] ? ? ? ? T [nid pend]]; cbn.
  - destruct (Nat.eqb dep r); cbn; discriminate.
  - discriminate.
  - auto.
  - auto.
Qed.

(** *** User and loading flag *)

Lemma same_session_refl (w : World) : same_session w w.
Proof. split; reflexivity. Qed.

Lemma same_session_trans (w1 w2 w3 : World) :
  same_session w1 w2 -> same_session w2 w3 -> same_session w1 w3.
Proof. intros [A B] [C D]. split; congruence. Qed.

Lemma setSessionCheckAttempts_session (f : Z -> Z) (w : World) :
  same_session w (setSessionCheckAttempts f w).
Proof.
  unfold setSessionCheckAttempts.
  destruct (f (sessionCheckAttempts w) =? sessionCheckAttempts w);
    destruct w; split; reflexivity.
Qed.

Lemma console_log_session (msg : string) (w : World) :
  same_session w (console_log msg w).
Proof. destruct w; split; reflexivity. Qed.

Lemma clearTimeout_session (id : option nat) (w : World) :
  same_session w (clearTimeout id w).
Proof. destruct w; split; reflexivity. Qed.

Lemma setTimeout_session (cb : Callback) (delay : Z) (w : World) :
  same_session w (snd (setTimeout cb delay w)).
Proof. destruct w as [? ? ? ? ? ? ? ? ? ? ? ? ? [nid pend]]; split; reflexivity. Qed.

Lemma checkUser_start_session (w : World) : same_session w (checkUser_start w).
Proof. destruct w as [? ? ? ? ? ? ? ? ? ? ? ? ? [nid pend]]; split; reflexivity. Qed.

Lemma commit_session (w : World) : same_session w (commit w).
Proof.
  unfold commit.
  destruct w as [? [|] ? r ? ? ? [[[dep h] f]|] ? ? ? ? T [nid pend]]; cbn;
    try (split; reflexivity).
  destruct (Nat.eqb dep r); split; reflexivity.
Qed.

Lemma clearSession_no_user (w : World) : user (clearSession w) = None.
Proof. apply clearSession_cleared. Qed.

Lemma handleSessionError_no_user (w : World) : user (handleSessionError w) = None.
Proof.
  unfold handleSessionError.
  pose proof (clearSession_no_user
                (console_log "Session error detected, clearing session and redirecting to home" w)) as H.
  destruct (clearSession _); exact H.
Qed.

Lemma setLoading_false (w : World) : loading (setLoading false w) = false.
Proof. destruct w as [? [|] ? ? ? ? ? ? ? ? ? ? ? ?]; reflexivity. Qed.

Lemma checkUser_catch_resolves (captured : Z) (e : string) (w : World) :
  resolves_or_keeps w (checkUser_catch captured e w).
Proof.
  unfold checkUser_catch.
  destruct (MAX_SESSION_CHECK_ATTEMPTS <=? captured).
  - left. apply handleSessionError_no_user.
  - right; right.
    eapply same_session_trans; [apply clearTimeout_session|].
    eapply same_session_trans; [apply console_log_session|].
    eapply same_session_trans; [apply setSessionCheckAttempts_session|].
    apply setTimeout_session.
Qed.

Lemma resolves_after_frame (w w0 w' : World) :
  same_session w w0 -> resolves_or_keeps w0 w' -> resolves_or_keeps w w'.
Proof.
  intros Hs [H|[H|H]]; [left|right; left|right; right]; auto.
  eapply same_session_trans; eassumption.
Qed.

Lemma checkUser_settle_resolves (captured : Z) (o : SessionCheck) (w : World) :
  resolves_or_keeps w (checkUser_settle captured o w).
Proof.
  unfold checkUser_settle.
  destruct o as [e| |farmer| |e].
  - eapply resolves_after_frame; [|apply checkUser_catch_resolves].
    destruct w; split; reflexivity.
  - right; left. apply setLoading_false.
  - right; left. apply setLoading_false.
  - eapply resolves_after_frame; [|apply checkUser_catch_resolves].
    destruct w; split; reflexivity.
  - eapply resolves_after_frame; [|apply checkUser_catch_resolves].
    destruct w; split; reflexivity.
Qed.

Lemma fire_resolves (captured : Z) (cb : Callback) (w : World) :
  resolves_or_keeps w (fire captured cb w).
Proof.
  destruct cb; cbn [fire].
  - left. apply handleSessionError_no_user.
  - right; right. destruct (captured <? MAX_SESSION_CHECK_ATTEMPTS);
      [apply checkUser_start_session | apply same_session_refl].
  - right; right. destruct w; split; reflexivity.
  - left.
    pose proof (clearSession_no_user
                  (console_log "Loading timeout reached, clearing session and redirecting" w)) as H.
    destruct (clearSession _); exact H.
Qed.

Lemma onAuthStateChange_not_loading (event : string) (session : option AuthSession)
      (lookup : FarmerLookup) (w : World) :
  loading (onAuthStateChange event session lookup w) = false.
Proof.
  assert (Herr : forall w0, loading (handleSessionError w0) = false).
  { intros w0. unfold handleSessionError.
    pose proof (clearSession_cleared
                  (console_log "Session error detected, clearing session and redirecting to home" w0))
      as (_ & H & _).
    destruct (clearSession _); exact H. }
  unfold onAuthStateChange.
  destruct (String.eqb event "SIGNED_OUT"
            || match session with None => true | Some _ => false end);
    [apply setLoading_false|].
  destruct session as [[[email|]]|]; try apply setLoading_false.
  destruct lookup as [[farmer|] [error|]|e];
    try apply Herr; apply setLoading_false.
Qed.

Lemma onAuthStateChange_same (event : string) (session : option AuthSession)
      (lookup : FarmerLookup) (w : World) :
  same_timers w (onAuthStateChange event session lookup w).
Proof.
  assert (Hnone : same_timers w (setLoading false (setUser None w))).
  { eapply same_timers_trans; [apply setUser_same | apply setLoading_same]. }
  assert (Herr : forall msg, same_timers w (handleSessionError (console_log msg w))).
  { intros msg. apply (same_timers_trans _ (console_log msg w));
      [apply console_log_same | apply handleSessionError_same]. }
  unfold onAuthStateChange.
  destruct (String.eqb event "SIGNED_OUT"
            || match session with None => true | Some _ => false end);
    [exact Hnone|].
  destruct session as [[[email|]]|]; try exact Hnone.
  destruct lookup as [[farmer|] [error|]|e]; try apply Herr.
  eapply same_timers_trans; [apply setUser_same|].
  eapply same_timers_trans; [apply setSessionCheckAttempts_same|].
  apply setLoading_same.
Qed.

Lemma signOut_same (o : Outcome (option string) string) (w : World) :
  same_timers w (signOut o w).
Proof.
  unfold signOut. destruct o as [[e|]|e].
  - eapply same_timers_trans; [apply console_log_same | apply clearSession_same].
  - apply clearSession_same.
  - eapply same_timers_trans; [apply console_log_same | apply clearSession_same].
Qed.

Lemma go_home_now_same (w : World) : same_timers w (go_home_now w).
Proof.
  unfold go_home_now.
  eapply same_timers_trans; [apply clearSession_same|].
  apply with_location_href_same.
Qed.

Lemma keeps_flag_invariant (w w1 w' : World) :
  (user w <> None -> loading w = false) ->
  resolves_or_keeps w w1 -> same_session w1 w' ->
  user w' <> None -> loading w' = false.
Proof.
  intros HP [H|[H|[Hu Hl]]] [Hu' Hl'] Hsome; rewrite Hl'.
  - rewrite Hu' in Hsome. contradiction.
  - exact H.
  - rewrite Hl. apply HP. now rewrite <- Hu, <- Hu'.
Qed.

(** One action keeps what holds between actions. *)
Lemma act_settled (captured : Z) (a : Action) (w w' : World) :
  settled w -> act captured a w = Some w' -> settled w'.
Proof.
  intros (Hown & _ & HP) Hact.
  assert (Hgoal : forall w0 w1,
             same_session w w0 -> guard_owned w0 ->
             (guard_owned w0 -> guard_owned w1) ->
             resolves_or_keeps w0 w1 ->
             settled (commit w1)).
  { intros w0 w1 Hs0 Hown0 Hop Hres. split; [|split].
    - apply commit_owned, Hop, Hown0.
    - apply commit_not_loading.
    - eapply keeps_flag_invariant;
        [exact HP | eapply resolves_after_frame; eassumption | apply commit_session]. }
  destruct a as [[dt o|]|dt event session lookup| |dt o]; cbn [act step] in Hact.
  - destruct (in_flight w && (0 <=? dt) && none_due_before (now w + dt) w);
      [|discriminate]. injection Hact as <-.
    apply (Hgoal (with_now (now w + dt) w)).
    + destruct w; split; reflexivity.
    + eapply frame_owned; [apply with_now_same | exact Hown].
    + apply checkUser_settle_owned.
    + apply checkUser_settle_resolves.
  - destruct (Timers.earliest (Timers.pending (timers w))) as [tm|];
      [|discriminate]. injection Hact as <-.
    apply (Hgoal (clearTimeout (Some (Timers.timer_id tm))
                               (with_now (Z.max (now w) (Timers.due tm)) w))).
    + destruct w; split; reflexivity.
    + apply clearTimeout_owned.
      eapply frame_owned; [apply with_now_same | exact Hown].
    + apply fire_owned.
    + apply fire_resolves.
  - destruct ((0 <=? dt) && none_due_before (now w + dt) w); [|discriminate].
    injection Hact as <-.
    apply (Hgoal (with_now (now w + dt) w)).
    + destruct w; split; reflexivity.
    + eapply frame_owned; [apply with_now_same | exact Hown].
    + apply frame_owned, onAuthStateChange_same.
    + right; left. apply onAuthStateChange_not_loading.
  - destruct (loading w && showTimeout w); [|discriminate].
    injection Hact as <-.
    apply (Hgoal w).
    + apply same_session_refl.
    + exact Hown.
    + apply frame_owned, go_home_now_same.
    + left. unfold go_home_now.
      pose proof (clearSession_no_user w) as H.
      destruct (clearSession w); exact H.
  - destruct ((0 <=? dt) && none_due_before (now w + dt) w); [|discriminate].
    injection Hact as <-.
    apply (Hgoal (with_now (now w + dt) w)).
    + destruct w; split; reflexivity.
    + eapply frame_owned; [apply with_now_same | exact Hown].
    + apply frame_owned, signOut_same.
    + left. unfold signOut. apply clearSession_cleared.
Qed.

Lemma perform_settled (captured : Z) (acts : list Action) :
  forall w w', settled w -> perform captured acts w = Some w' -> settled w'.
Proof.
  induction acts as [|a acts IH]; intros w w' Hs Hrun; cbn [perform] in Hrun.
  - now injection Hrun as <-.
  - destruct (act captured a w) as [w1|] eqn:Hact; [|discriminate].
    eapply IH; [|exact Hrun]. eapply act_settled; eassumption.
Qed.

Lemma mount_settled (ls ss : gmap string string) (href : string) :
  settled (snd (mount (page_load ls ss href))).
Proof.
  split; [|split]; cbn; try discriminate; try congruence.
  split; [repeat constructor|].
  split; [repeat constructor|]. split; [repeat constructor|].
  constructor; [intros _; left; reflexivity|].
  constructor; [intros _; right; reflexivity|].
  constructor; [discriminate | constructor].
Qed.

(** Once loading has ended, by whatever course of events, no timer of the
    loading guard is pending and the hint is hidden: the guard's forced
    redirect cannot reach a page that has finished loading. *)
Theorem guard_timers_gone_after_loading
        (ls ss : gmap string string) (href : string) (captured : Z)
        (acts : list Action) (w : World) :
  perform captured acts (snd (mount (page_load ls ss href))) = Some w ->
  loading w = false ->
  Forall (fun t => is_guard (Timers.callback t) = false)
         (Timers.pending (timers w))
  /\ showTimeout w = false.
Proof.
  intros Hrun Hl.
  destruct (perform_settled captured acts _ _ (mount_settled ls ss href) Hrun)
    as ((_ & Hg) & Hnl & _).
  destruct (Hnl Hl) as [Hsp Hsh]. rewrite Hsp in Hg. auto.
Qed.

Lemma guard_timers_gone_after_loading_witness :
  exists w,
    perform 0 [AuthChange 1000 "SIGNED_IN" session_of_asha
                          (FarmerRow (Some farmer_asha) None)]
            (snd (mount (page_load ∅ ∅ "/"))) = Some w
    /\ Forall (fun t => is_guard (Timers.callback t) = false)
              (Timers.pending (timers w)).
Proof.
  eexists. split; [vm_compute; reflexivity|].
  refine (proj1 (guard_timers_gone_after_loading ∅ ∅ "/" 0
                   [AuthChange 1000 "SIGNED_IN" session_of_asha
                               (FarmerRow (Some farmer_asha) None)]
                   _ _ _)).
  - vm_compute. reflexivity.
  - reflexivity.
Defined.

(** Whatever happens, a page that holds a user is not loading: the
    loading screen is never shown to a signed-in farmer. *)
Theorem user_implies_loaded
        (ls ss : gmap string string) (href : string) (captured : Z)
        (acts : list Action) (w : World) :
  perform captured acts (snd (mount (page_load ls ss href))) = Some w ->
  user w <> None ->
  loading w = false.
Proof.
  intros Hrun.
  apply (perform_settled captured acts _ _ (mount_settled ls ss href) Hrun).
Qed.

Lemma user_implies_loaded_witness :
  exists w,
    perform 0 [Loop (Settle 1000 (FarmerFound farmer_asha))]
            (snd (mount (page_load ∅ ∅ "/"))) = Some w
    /\ loading w = false.
Proof.
  eexists. split; [vm_compute; reflexivity|].
  refine (user_implies_loaded ∅ ∅ "/" 0
            [Loop (Settle 1000 (FarmerFound farmer_asha))] _ _ _).
  - vm_compute. reflexivity.
  - discriminate.
Defined.

End GuardInvariant.

(** ** Auth-change notifications and the initial session check *)

Section AuthChanges.
Import JS Session AuthEvents Spec.

Ltac decide_tests :=
  repeat match goal with
    | |- context [Nat.eqb ?x ?x] => rewrite (Nat.eqb_refl x)
    | |- context [Nat.eqb ?x ?y] =>
        replace (Nat.eqb x y) with false by (symmetry; apply Nat.eqb_neq; lia)
    | |- context [Z.ltb ?x ?y] =>
        first [ replace (Z.ltb x y) with true by (symmetry; apply Z.ltb_lt; lia)
              | replace (Z.ltb x y) with false by (symmetry; apply Z.ltb_ge; lia) ]
    | |- context [Z.leb ?x ?y] =>
        first [ replace (Z.leb x y) with true by (symmetry; apply Z.leb_le; lia)
              | replace (Z.leb x y) with false by (symmetry; apply Z.leb_gt; lia) ]
    | |- context [Z.eqb ?x ?y] =>
        first [ replace (Z.eqb x y) with true by (symmetry; apply Z.eqb_eq; lia)
              | replace (Z.eqb x y) with false by (symmetry; apply Z.eqb_neq; lia) ]
    end.

Ltac world_eval :=
  cbv beta iota zeta delta
      [with_user with_loading with_sessionCheckAttempts with_renders
       with_timeoutId with_in_flight with_showTimeout with_spinner_effect
       with_localStorage with_sessionStorage with_location_href with_console
       with_now with_timers
       user loading sessionCheckAttempts renders timeoutId in_flight showTimeout
       spinner_effect localStorage sessionStorage location_href console now timers
       Timers.timer_id Timers.due Timers.callback Timers.next_id Timers.pending
       List.filter forallb negb andb orb fst snd Bool.eqb session_user];
  cbn [app];
  decide_tests;
  cbv beta iota.

(** The handler's outcome, branch by branch: it always ends the loading
    state; it sets a user exactly when the notification carries a session
    whose profile row was found without error; it clears the storage and
    leaves for the landing route exactly when that lookup failed; a
    sign-out notification or an empty session only drops the user, storage
    and location stay. *)
Theorem onAuthStateChange_outcome (event : string) (session : option AuthSession)
        (lookup : FarmerLookup) (w : World) :
  let w' := onAuthStateChange event session lookup w in
  let has_user :=
    negb (String.eqb event "SIGNED_OUT")
    && match session with
       | Some {| session_user := Some _ |} => true
       | _ => false
       end in
  loading w' = false
  /\ match has_user, lookup with
     | true, FarmerRow (Some farmer) None =>
         user w' = Some farmer
         /\ sessionCheckAttempts w' = 0
         /\ localStorage w' = localStorage w
         /\ sessionStorage w' = sessionStorage w
         /\ location_href w' = location_href w
     | true, _ => session_cleared w' /\ location_href w' = "/"%string
     | false, _ =>
         user w' = None
         /\ sessionCheckAttempts w' = sessionCheckAttempts w
         /\ localStorage w' = localStorage w
         /\ sessionStorage w' = sessionStorage w
         /\ location_href w' = location_href w
     end.
Proof.
  cbv zeta. split; [apply onAuthStateChange_not_loading|].
  assert (Hdrop : forall w0 : World,
             let w1 := setLoading false (setUser None w0) in
             user w1 = None
             /\ sessionCheckAttempts w1 = sessionCheckAttempts w0
             /\ localStorage w1 = localStorage w0
             /\ sessionStorage w1 = sessionStorage w0
             /\ location_href w1 = location_href w0).
  { intros [[u|] [|] ? ? ? ? ? ? ? ? ? ? ? ?]; cbn; repeat split. }
  assert (Herr : forall w0 : World,
             session_cleared (handleSessionError w0)
             /\ location_href (handleSessionError w0) = "/"%string).
  { intros w0. unfold handleSessionError. split; [|reflexivity].
    match goal with
    | |- session_cleared (with_location_href _ (clearSession ?x)) =>
        pose proof (clearSession_cleared x) as H; destruct (clearSession x)
    end.
    exact H. }
  unfold onAuthStateChange.
  destruct (String.eqb event "SIGNED_OUT"); cbn [negb andb orb];
    [apply Hdrop|].
  destruct session as [[[email|]]|]; cbn [negb andb orb]; try apply Hdrop.
  destruct lookup as [[farmer|] [error|]|e]; try apply Herr.
  destruct w as [[u|] [|] [|n|n] ? ? ? ? ? ? ? ? ? ? ?]; cbn; repeat split.
Qed.

(** A sign-in that arrives while the initial session lookup hangs is
    undone: the handler sets the user and ends loading, but the timeout
    of the hanging check is still pending, and ten seconds after page load
    it clears the session and leaves for the landing route. *)
Theorem sign_in_undone_by_hanging_check
        (ls ss : gmap string string) (href event email : string)
        (farmer : Farmer) (dt : Z) :
  String.eqb event "SIGNED_OUT" = false ->
  0 <= dt < 8000 ->
  exists w1 w2,
    perform 0 [AuthChange dt event (Some {| session_user := Some email |})
                          (FarmerRow (Some farmer) None)]
            (snd (mount (page_load ls ss href))) = Some w1
    /\ user w1 = Some farmer
    /\ loading w1 = false
    /\ localStorage w1 = ls
    /\ perform 0 [Loop Fire] w1 = Some w2
    /\ now w2 = 10000
    /\ session_cleared w2
    /\ location_href w2 = "/"%string.
Proof.
  intros He Hdt. rewrite mount_captures_zero. cbn [snd]. unfold retrying.
  eexists _, _. split.
  { cbn [perform act]. unfold none_due_before. world_eval.
    unfold onAuthStateChange. rewrite He. world_eval.
    unfold setUser, rerender. world_eval.
    unfold setSessionCheckAttempts. world_eval.
    unfold setLoading, rerender. world_eval.
    unfold commit. world_eval.
    unfold spinner_effect_cleanup, clearTimeout, Timers.clearTimeout. world_eval.
    reflexivity. }
  split; [reflexivity|]. split; [reflexivity|]. split; [reflexivity|].
  split.
  { cbn [perform act step]. unfold Timers.earliest. world_eval.
    unfold Timers.remove, Timers.clearTimeout. world_eval.
    unfold fire, handleSessionError, clearSession, console_log. world_eval.
    unfold setUser, rerender. world_eval.
    unfold setLoading. world_eval.
    unfold commit. world_eval.
    unfold spinner_effect_cleanup. world_eval.
    reflexivity. }
  cbn. split; [lia|]. repeat split; reflexivity.
Qed.

Lemma sign_in_undone_by_hanging_check_witness :
  exists w1 w2,
    perform 0 [AuthChange 1500 "SIGNED_IN" session_of_asha
                          (FarmerRow (Some farmer_asha) None)]
            (snd (mount (page_load {[ "sb-token" := "abc" ]} ∅ "/auth"))) = Some w1
    /\ user w1 = Some farmer_asha
    /\ perform 0 [Loop Fire] w1 = Some w2
    /\ user w2 = None
    /\ location_href w2 = "/"%string.
Proof.
  destruct (sign_in_undone_by_hanging_check
              {[ "sb-token" := "abc" ]} ∅ "/auth" "SIGNED_IN" "asha@example.org"
              farmer_asha 1500 eq_refl ltac:(lia))
    as (w1 & w2 & H1 & H2 & _ & _ & H3 & _ & (H4 & _) & H5).
  exists w1, w2. auto.
Defined.

(** *** How the retry loop ends *)

Lemma retrying_check_finds_farmer (n a : nat) (T D1 D2 D3 : Z)
      (ls ss : gmap string string) (href : string) (log : list string)
      (farmer : Farmer) :
  T + 1000 < D1 -> T + 1000 < D2 -> T + 1000 < D3 ->
  exists w,
    step 0 (Settle 1000 (FarmerFound farmer))
         (retrying n a T D1 D2 D3 ls ss href log) = Some w
    /\ user w = Some farmer
    /\ loading w = false
    /\ sessionCheckAttempts w = 0
    /\ Timers.pending (timers w) = []
    /\ localStorage w = ls
    /\ sessionStorage w = ss
    /\ location_href w = href.
Proof.
  intros H1 H2 H3. unfold retrying.
  destruct n as [|n]; eexists; (split; [|shelve]);
    unfold step, none_due_before; world_eval;
    unfold checkUser_settle, clearTimeout, Timers.clearTimeout; world_eval;
    unfold setUser, rerender; world_eval;
    unfold setSessionCheckAttempts, rerender; world_eval;
    unfold setLoading, rerender; world_eval;
    unfold commit; world_eval;
    unfold spinner_effect_cleanup, clearTimeout, Timers.clearTimeout; world_eval;
    reflexivity.
  Unshelve. all: cbn; repeat split; reflexivity.
Qed.

Lemma retrying_check_finds_no_session (n a : nat) (T D1 D2 D3 : Z)
      (ls ss : gmap string string) (href : string) (log : list string) :
  T + 1000 < D1 -> T + 1000 < D2 -> T + 1000 < D3 ->
  exists w,
    step 0 (Settle 1000 NoSession)
         (retrying n a T D1 D2 D3 ls ss href log) = Some w
    /\ user w = None
    /\ loading w = false
    /\ Timers.pending (timers w) = []
    /\ localStorage w = ls
    /\ sessionStorage w = ss
    /\ location_href w = href.
Proof.
  intros H1 H2 H3. unfold retrying.
  eexists; (split; [|shelve]);
    unfold step, none_due_before; world_eval;
    unfold checkUser_settle, clearTimeout, Timers.clearTimeout; world_eval;
    unfold setUser; world_eval;
    unfold setLoading, rerender; world_eval;
    unfold commit; world_eval;
    unfold spinner_effect_cleanup, clearTimeout, Timers.clearTimeout; world_eval;
    reflexivity.
  Unshelve. all: cbn; repeat split; reflexivity.
Qed.

(** After any number of failed checks, a check that finds the profile
    row ends the loop for good: the farmer is the user, loading is over,
    the failure counter is back at 0, storage and location are untouched,
    and no timer at all is left pending - neither the check's timeout nor
    the guard's two timers can fire later. *)
Theorem session_check_success_ends_loop
        (ls ss : gmap string string) (href : string) (fs : list Failure)
        (farmer : Farmer) :
  exists w,
    run (fst (mount (page_load ls ss href)))
        (failed_checks fs ++ [Settle 1000 (FarmerFound farmer)])
        (snd (mount (page_load ls ss href))) = Some w
    /\ user w = Some farmer
    /\ loading w = false
    /\ sessionCheckAttempts w = 0
    /\ Timers.pending (timers w) = []
    /\ localStorage w = ls
    /\ sessionStorage w = ss
    /\ location_href w = href.
Proof.
  rewrite mount_captures_zero. cbn [fst snd].
  destruct (retry_loop ls ss href fs 0%nat 1%nat 0 8000 12000 10000 [])
    as (a' & D1' & D2' & D3' & Hrun & G1 & G2 & G3); try lia.
  rewrite run_app, Hrun. cbn [run].
  destruct (retrying_check_finds_farmer (0 + length fs) a'
              (0 + 3000 * Z.of_nat (length fs)) D1' D2' D3' ls ss href
              ([] ++ map logged fs) farmer G1 G2 G3) as (w & Hstep & Hw).
  exists w. rewrite Hstep. auto.
Qed.

(** After any number of failed checks, a check that finds no session
    ends the loop unauthenticated without the forced reset: no user,
    loading over, storage and location untouched, no timer left
    pending. *)
Theorem session_check_no_session_ends_loop
        (ls ss : gmap string string) (href : string) (fs : list Failure) :
  exists w,
    run (fst (mount (page_load ls ss href)))
        (failed_checks fs ++ [Settle 1000 NoSession])
        (snd (mount (page_load ls ss href))) = Some w
    /\ user w = None
    /\ loading w = false
    /\ Timers.pending (timers w) = []
    /\ localStorage w = ls
    /\ sessionStorage w = ss
    /\ location_href w = href.
Proof.
  rewrite mount_captures_zero. cbn [fst snd].
  destruct (retry_loop ls ss href fs 0%nat 1%nat 0 8000 12000 10000 [])
    as (a' & D1' & D2' & D3' & Hrun & G1 & G2 & G3); try lia.
  rewrite run_app, Hrun. cbn [run].
  destruct (retrying_check_finds_no_session (0 + length fs) a'
              (0 + 3000 * Z.of_nat (length fs)) D1' D2' D3' ls ss href
              ([] ++ map logged fs) G1 G2 G3) as (w & Hstep & Hw).
  exists w. rewrite Hstep. auto.
Qed.

(** *** The hint's button *)

Lemma commit_keeps_browser (w : World) :
  user (commit w) = user w
  /\ loading (commit w) = loading w
  /\ localStorage (commit w) = localStorage w
  /\ sessionStorage (commit w) = sessionStorage w
  /\ location_href (commit w) = location_href w.
Proof.
  unfold commit.
  destruct w as [? [|] ? r ? ? ? [[[dep h] f]|] ? ? ? ? T [nid pend]]; cbn;
    try (repeat split; reflexivity).
  destruct (Nat.eqb dep r); repeat split; reflexivity.
Qed.

(** The button "Go to home page now" can be clicked only while the page
    is loading and the hint is shown; a click clears the session, leaves
    for the landing route, and removes the guard together with its
    timers. *)
Theorem go_home_click (captured : Z) (w w' : World) :
  act captured ClickGoHome w = Some w' ->
  (loading w = true /\ showTimeout w = true)
  /\ session_cleared w'
  /\ location_href w' = "/"%string
  /\ spinner_effect w' = None
  /\ showTimeout w' = false.
Proof.
  cbn [act]. intros H.
  destruct (loading w) eqn:Hl, (showTimeout w) eqn:Hs; try discriminate H.
  injection H as <-.
  split; [auto|].
  assert (Hc : session_cleared (go_home_now w)
               /\ location_href (go_home_now w) = "/"%string).
  { unfold go_home_now. split; [|reflexivity].
    pose proof (clearSession_cleared w) as Hcl.
    destruct (clearSession w); exact Hcl. }
  destruct Hc as [(Hu & Hld & Hls & Hss) Hh].
  destruct (commit_keeps_browser (go_home_now w)) as (Cu & Cl & Cls & Css & Ch).
  split; [repeat split; congruence|]. split; [congruence|].
  apply commit_not_loading. congruence.
Qed.

Lemma go_home_click_witness :
  location_href
    (commit (go_home_now
               (with_showTimeout true (snd (mount (page_load ∅ ∅ "/auth"))))))
  = "/"%string.
Proof.
  assert (H : act 0 ClickGoHome
                  (with_showTimeout true (snd (mount (page_load ∅ ∅ "/auth"))))
              = Some (commit (go_home_now
                                (with_showTimeout true
                                   (snd (mount (page_load ∅ ∅ "/auth")))))))
    by (vm_compute; reflexivity).
  exact (proj1 (proj2 (proj2 (go_home_click 0 _ _ H)))).
Defined.

(** *** [clearSession] and [signUp] *)

(** [clearSession] is idempotent, and on a session that is already
    cleared it changes nothing at all - no state update and so no new
    render of the provider. *)
Theorem clearSession_idempotent (w : World) :
  clearSession (clearSession w) = clearSession w
  /\ (session_cleared w -> clearSession w = w).
Proof.
  split.
  - destruct w as [[u|] [|] ? ? ? ? ? ? ? ? ? ? ? ?]; reflexivity.
  - intros (Hu & Hl & Hls & Hss).
    destruct w as [u l ? ? ? ? ? ? lsw ssw ? ? ? ?]. cbn in *. subst.
    reflexivity.
Qed.

Lemma clearSession_idempotent_witness :
  clearSession (clearSession (page_load ∅ ∅ "/")) = clearSession (page_load ∅ ∅ "/").
Proof.
  rewrite (proj2 (clearSession_idempotent (clearSession (page_load ∅ ∅ "/")))).
  - reflexivity.
  - repeat split; reflexivity.
Defined.



(** *** A retry that hangs *)

Lemma retry_loop_last (ls ss : gmap string string) (href : string)
      (fs : list Failure) (f : Failure) :
  exists a,
    run 0 (failed_checks (fs ++ [f])) (snd (mount (page_load ls ss href)))
    = Some (retrying (length fs + 1) a
                     (3000 * Z.of_nat (length fs) + 3000)
                     (3000 * Z.of_nat (length fs) + 9000)
                     (3000 * Z.of_nat (length fs) + 13000)
                     (3000 * Z.of_nat (length fs) + 13000)
                     ls ss href (map logged (fs ++ [f]))).
Proof.
  rewrite mount_captures_zero. cbn [snd].
  unfold failed_checks. rewrite flat_map_app. fold (failed_checks fs).
  rewrite run_app.
  destruct (retry_loop ls ss href fs 0 1 0 8000 12000 10000 [])
    as (a & D1 & D2 & D3 & -> & G1 & G2 & G3); try lia.
  cbn [flat_map failed_check app run].
  rewrite failed_check_backs_off by lia.
  rewrite retry_timer_restarts.
  exists (S (S (S (S a)))).
  rewrite List.map_app. cbn [map Nat.add].
  replace (length fs + 1)%nat with (S (length fs)) by lia.
  f_equal. f_equal; lia.
Qed.

(** After one or more failed checks, a retry that hangs is cut short by
    the loading guard, whose timers were restarted by the last failure:
    the hint shows 6 s after the retry was issued, and 10 s after it the
    session is cleared and the page leaves for the landing route. *)
Theorem hanging_retry_cut_short (ls ss : gmap string string) (href : string)
        (fs : list Failure) :
  fs <> [] ->
  exists w1 w2,
    run 0 (failed_checks fs ++ [Fire]) (snd (mount (page_load ls ss href)))
    = Some w1
    /\ now w1 = 3000 * Z.of_nat (length fs) + 6000
    /\ showTimeout w1 = true
    /\ loading w1 = true
    /\ localStorage w1 = ls
    /\ location_href w1 = href
    /\ run 0 [Fire] w1 = Some w2
    /\ now w2 = 3000 * Z.of_nat (length fs) + 10000
    /\ session_cleared w2
    /\ location_href w2 = "/"%string.
Proof.
  intros Hne.
  destruct (exists_last Hne) as (fs' & f & ->).
  destruct (retry_loop_last ls ss href fs' f) as (a & Hloop).
  rewrite run_app, Hloop, length_app. cbn [length].
  unfold retrying.
  eexists _, _. split.
  { cbn [run step]. unfold Timers.earliest. world_eval.
    unfold Timers.remove, Timers.clearTimeout. world_eval.
    unfold fire. world_eval.
    unfold commit. world_eval.
    reflexivity. }
  split; [cbn [now]; lia|]. split; [reflexivity|]. split; [reflexivity|].
  split; [reflexivity|]. split; [reflexivity|].
  split.
  { cbn [run step]. unfold Timers.earliest. world_eval.
    unfold Timers.remove, Timers.clearTimeout. world_eval.
    unfold fire, clearSession, console_log. world_eval.
    unfold setUser. world_eval.
    unfold setLoading. world_eval.
    unfold rerender. world_eval.
    unfold commit. world_eval.
    unfold spinner_effect_cleanup, clearTimeout, Timers.clearTimeout. world_eval.
    reflexivity. }
  cbn. split; [lia|]. repeat split; reflexivity.
Qed.


Lemma hanging_retry_cut_short_witness :
  exists w1 w2,
    run 0 (failed_checks [ProfileMissing] ++ [Fire])
        (snd (mount (page_load ∅ ∅ "/dashboard"))) = Some w1
    /\ now w1 = 9000
    /\ showTimeout w1 = true
    /\ loading w1 = true
    /\ localStorage w1 = ∅
    /\ location_href w1 = "/dashboard"%string
    /\ run 0 [Fire] w1 = Some w2
    /\ now w2 = 13000
    /\ session_cleared w2
    /\ location_href w2 = "/"%string.
Proof.
  destruct (hanging_retry_cut_short ∅ ∅ "/dashboard" [ProfileMissing])
    as (w1 & w2 & H); [discriminate|].
  exists w1, w2. exact H.
Defined.

End AuthChanges.

(** ** Properties of the charts *)

Section Charts.
Import JS Dashboard DashboardView Spec.

Lemma firstn_member {A} (n : nat) (l : list A) (x : A) :
  In x (firstn n l) -> In x l.
Proof.
  intros H. rewrite <- (List.firstn_skipn n l). apply in_or_app. now left.
Qed.

(** *** Health trend *)








(** *** Donut and success rate *)

(** The donut always shows one or two slices, each of a positive
    value, and the values add up to 100. *)
Theorem donut_adds_up (treatments : list Treatment) :
  let slices := calculateCropHealth treatments in
  (1 <= length slices <= 2)%nat
  /\ Forall (fun s => 0 < value s) slices
  /\ sum_values slices = 100.
Proof.
  cbv zeta. rewrite calculateCropHealth_donut.
  destruct treatments as [|t ts].
  - cbn. repeat split; try lia. repeat constructor.
  - pose proof (treated_share_range t ts) as Hr.
    unfold donut. set (r := treated_share (t :: ts)) in *. clearbody r.
    cbn [List.filter value].
    destruct (Z.eqb_spec r 0), (Z.eqb_spec (100 - r) 0);
      cbn [negb length sum_values fold_right value]; try lia;
      (split; [lia|]); (split; [|lia]).
    + constructor; [cbn; lia | constructor].
    + constructor; [cbn; lia | constructor].
    + constructor; [cbn; lia|]. constructor; [cbn; lia | constructor].
Qed.

Lemma success_rate_treated_share (t : Treatment) (ts : list Treatment) (st : Stats) :
  completedTreatments st = count completed (t :: ts) ->
  success_rate st (t :: ts) = treated_share (t :: ts).
Proof.
  intros E. unfold success_rate, treated_share. rewrite E.
  assert ((0 <? Z.of_nat (length (t :: ts))) = true) as ->
      by (apply Z.ltb_lt; cbn [length]; lia).
  reflexivity.
Qed.

(** After a fetch cycle whose queries resolve, the "Success Rate" tile
    and the donut agree: the rate lies between 0 and 100, a "Treated"
    slice carries exactly the rate and a "Needs Treatment" slice its
    complement to 100; with no treatments the rate is 0. *)
Theorem success_rate_matches_donut (u : Farmer) (st : State)
        (l : Response Land) (p : Response Plant)
        (t : Response Treatment) (d : Response Diagnosis) :
  let st' := fetchDashboardData (Some u) (resolving l p t d) st in
  let rate := success_rate (stats st') (treatments st') in
  0 <= rate <= 100
  /\ (treatments st' = [] -> rate = 0)
  /\ (forall s, In s (calculateCropHealth (treatments st')) ->
                name s = "Treated"%string -> value s = rate)
  /\ (forall s, In s (calculateCropHealth (treatments st')) ->
                name s = "Needs Treatment"%string -> value s = 100 - rate).
Proof.
  cbv zeta. cbn [fetchDashboardData resolving bind from_lands from_plants
                 from_treatment_schedules from_plant_diagnosis stats treatments].
  destruct (data t) as [[|x ts]|]; cbn [or_empty calc_completedTreatments].
  - change (success_rate _ []) with 0.
    change (calculateCropHealth [])
      with [ {| name := "No Data"; value := 100; fill := "#9CA3AF" |} ].
    split; [lia|]. split; [reflexivity|].
    split; intros s [<-|[]]; discriminate.
  - rewrite success_rate_treated_share by reflexivity.
    pose proof (treated_share_range x ts) as Hr.
    rewrite calculateCropHealth_donut. unfold donut.
    set (r := treated_share (x :: ts)) in *. clearbody r.
    split; [exact Hr|]. split; [discriminate|].
    split; intros s Hs Hname; apply List.filter_In in Hs as [Hs _];
      destruct Hs as [<-|[<-|[]]]; cbn in *; congruence.
  - change (success_rate _ []) with 0.
    change (calculateCropHealth [])
      with [ {| name := "No Data"; value := 100; fill := "#9CA3AF" |} ].
    split; [lia|]. split; [reflexivity|].
    split; intros s [<-|[]]; discriminate.
Qed.

Lemma success_rate_matches_donut_witness :
  success_rate
    (stats (fetchDashboardData (Some farmer_ravi)
              (resolving {| data := Some []; error := None |}
                         {| data := Some []; error := None |}
                         {| data := Some [treatment "Neem Oil" true;
                                          treatment "Neem Oil" true;
                                          treatment "Sulfur Dust" false];
                            error := None |}
                         {| data := Some []; error := None |})
              initial))
    [treatment "Neem Oil" true; treatment "Neem Oil" true;
     treatment "Sulfur Dust" false]
  = 67.
Proof.
  symmetry.
  refine (proj1 (proj2 (proj2 (success_rate_matches_donut farmer_ravi initial
            {| data := Some []; error := None |}
            {| data := Some []; error := None |}
            {| data := Some [treatment "Neem Oil" true;
                             treatment "Neem Oil" true;
                             treatment "Sulfur Dust" false];
               error := None |}
            {| data := Some []; error := None |})))
          {| name := "Treated"; value := 67; fill := "#10B981" |} _ _).
  - left. reflexivity.
  - reflexivity.
Defined.

(** *** Lists of upcoming treatments *)

(** After a fetch cycle whose queries resolve, the "Upcoming Treatments"
    card is absent exactly when no treatment was fetched; otherwise it
    lists pending treatments only, in fetched order, and as many of them
    as the "Active Treatments" tile counts, up to five. *)
Theorem upcoming_treatments_match_active (u : Farmer) (st : State)
        (l : Response Land) (p : Response Plant)
        (t : Response Treatment) (d : Response Diagnosis) :
  let st' := fetchDashboardData (Some u) (resolving l p t d) st in
  (upcoming_treatments (treatments st') = None <-> treatments st' = [])
  /\ (forall shown,
         upcoming_treatments (treatments st') = Some shown ->
         Z.of_nat (length shown) = Z.min 5 (activeTreatments (stats st'))
         /\ Forall (fun x => completed x = false) shown
         /\ shown = firstn 5 (List.filter (fun x => negb (completed x))
                                          (treatments st'))).
Proof.
  cbv zeta. cbn [fetchDashboardData resolving bind from_lands from_plants
                 from_treatment_schedules from_plant_diagnosis stats treatments
                 activeTreatments].
  destruct (data t) as [[|x ts]|]; cbn [or_empty calc_activeTreatments].
  - cbn. split; [tauto | discriminate].
  - unfold upcoming_treatments.
    assert ((0 <? Z.of_nat (length (x :: ts))) = true) as ->
        by (apply Z.ltb_lt; cbn [length]; lia).
    split; [split; discriminate|].
    remember (x :: ts) as fetched eqn:Ef. clear Ef.
    intros shown Hshown. injection Hshown as <-.
    split; [|split; [|reflexivity]].
    + rewrite length_firstn, Nat2Z.inj_min. reflexivity.
    + apply List.Forall_forall. intros y Hy.
      apply firstn_member, List.filter_In in Hy as [_ Hy].
      now apply negb_true_iff in Hy.
  - cbn. split; [tauto | discriminate].
Qed.

Lemma upcoming_treatments_match_active_witness :
  exists shown,
    upcoming_treatments
      (treatments (fetchDashboardData (Some farmer_ravi)
                     (resolving {| data := None; error := None |}
                                {| data := None; error := None |}
                                {| data := Some [treatment "Neem Oil" false];
                                   error := None |}
                                {| data := None; error := None |})
                     initial)) = Some shown
    /\ Z.of_nat (length shown) = 1.
Proof.
  destruct (upcoming_treatments
              (treatments (fetchDashboardData (Some farmer_ravi)
                     (resolving {| data := None; error := None |}
                                {| data := None; error := None |}
                                {| data := Some [treatment "Neem Oil" false];
                                   error := None |}
                                {| data := None; error := None |})
                     initial))) as [shown|] eqn:H;
    [|vm_compute in H; discriminate H].
  exists shown. split; [reflexivity|].
  apply (proj2 (upcoming_treatments_match_active farmer_ravi initial
                  {| data := None; error := None |}
                  {| data := None; error := None |}
                  {| data := Some [treatment "Neem Oil" false]; error := None |}
                  {| data := None; error := None |}) shown H).
Defined.

Lemma StronglySorted_filter {A} (R : A -> A -> Prop) (f : A -> bool) (l : list A) :
  StronglySorted R l -> StronglySorted R (List.filter f l).
Proof.
  induction 1 as [|a l Hs IH Ha]; cbn; [constructor|].
  destruct (f a); [|exact IH].
  constructor; [exact IH|].
  apply List.Forall_forall. intros x Hx.
  apply List.filter_In in Hx as [Hx _].
  rewrite List.Forall_forall in Ha. now apply Ha.
Qed.

Lemma StronglySorted_app_order {A} (R : A -> A -> Prop) (l1 l2 : list A) :
  StronglySorted R (l1 ++ l2) ->
  forall x y, In x l1 -> In y l2 -> R x y.
Proof.
  induction l1 as [|a l1 IH]; cbn; intros Hs x y Hx Hy; [destruct Hx|].
  apply StronglySorted_inv in Hs as [Hs Ha].
  destruct Hx as [<-|Hx].
  - rewrite List.Forall_forall in Ha. apply Ha, in_or_app. now right.
  - now apply (IH Hs).
Qed.

(** "Upcoming This Week" lists at most three treatments, each pending
    and scheduled between now and seven days from now; the "No treatments
    scheduled this week" line shows exactly when no treatment qualifies,
    which is exactly when the list is empty; and when the treatments come
    in ascending order of [scheduled_date], as the query asks, every
    qualifying treatment that is left out is scheduled no earlier than
    each listed one. *)
Theorem upcoming_this_week_earliest (now : Z) (treatments : list Treatment) :
  let shown := upcoming_this_week now treatments in
  let left_out := skipn 3 (List.filter (due_this_week now) treatments) in
  (length shown <= 3)%nat
  /\ Forall (fun t => completed t = false
                      /\ now <= scheduled_date t <= now + 604800000) shown
  /\ (no_treatments_this_week now treatments = true <-> shown = [])
  /\ (no_treatments_this_week now treatments = true <->
      Forall (fun t => due_this_week now t = false) treatments)
  /\ (forall t, In t treatments -> due_this_week now t = true ->
                In t shown \/ In t left_out)
  /\ (ascending treatments ->
      forall t t', In t shown -> In t' left_out ->
                   scheduled_date t <= scheduled_date t').
Proof.
  cbv zeta. unfold upcoming_this_week, no_treatments_this_week.
  set (due := List.filter (due_this_week now) treatments).
  split; [apply List.firstn_le_length|].
  split.
  { apply List.Forall_forall. intros t Ht.
    apply firstn_member in Ht. apply List.filter_In in Ht as [_ Ht].
    unfold due_this_week, WEEK_MS in Ht.
    apply andb_true_iff in Ht as [Ht Hc]. apply andb_true_iff in Ht as [H1 H2].
    apply Z.leb_le in H1, H2. apply negb_true_iff in Hc.
    split; [exact Hc | lia]. }
  split.
  { rewrite Nat.eqb_eq. destruct due as [|x xs]; cbn; split; congruence. }
  split.
  { rewrite Nat.eqb_eq. unfold due. split.
    - intros Hlen. apply List.Forall_forall. intros t Ht.
      destruct (due_this_week now t) eqn:E; [|reflexivity].
      assert (Hin : In t (List.filter (due_this_week now) treatments))
        by (apply List.filter_In; auto).
      destruct (List.filter (due_this_week now) treatments);
        [destruct Hin | discriminate Hlen].
    - intros Hall. rewrite List.Forall_forall in Hall.
      destruct (List.filter (due_this_week now) treatments) as [|x xs] eqn:E;
        [reflexivity|].
      assert (Hin : In x (List.filter (due_this_week now) treatments))
        by (rewrite E; now left).
      apply List.filter_In in Hin as [Hin Hd].
      rewrite (Hall x Hin) in Hd. discriminate Hd. }
  split.
  { intros t Ht Hd.
    assert (Hin : In t due) by (apply List.filter_In; auto).
    rewrite <- (List.firstn_skipn 3 due) in Hin.
    apply in_app_or in Hin. exact Hin. }
  intros Hasc t t' Ht Ht'.
  apply (StronglySorted_app_order
           (fun a b => scheduled_date a <= scheduled_date b)
           (firstn 3 due) (skipn 3 due)); auto.
  rewrite List.firstn_skipn. now apply StronglySorted_filter.
Qed.

Lemma upcoming_this_week_earliest_witness :
  Forall (fun t =>
            Forall (fun t' => scheduled_date t <= scheduled_date t')
              (skipn 3 (List.filter (due_this_week 0)
                 [ {| pesticide_name := "A"; scheduled_date := 1; completed := false |};
                   {| pesticide_name := "B"; scheduled_date := 2; completed := false |};
                   {| pesticide_name := "C"; scheduled_date := 3; completed := false |};
                   {| pesticide_name := "D"; scheduled_date := 4; completed := false |} ])))
    (upcoming_this_week 0
       [ {| pesticide_name := "A"; scheduled_date := 1; completed := false |};
         {| pesticide_name := "B"; scheduled_date := 2; completed := false |};
         {| pesticide_name := "C"; scheduled_date := 3; completed := false |};
         {| pesticide_name := "D"; scheduled_date := 4; completed := false |} ]).
Proof.
  apply List.Forall_forall. intros t Ht.
  apply List.Forall_forall. intros t' Ht'.
  revert t t' Ht Ht'.
  apply (proj2 (proj2 (proj2 (proj2 (proj2 (upcoming_this_week_earliest 0 _)))))).
  unfold ascending.
  repeat (constructor; [|repeat (constructor; [cbn; lia|]); constructor]).
  constructor.
Defined.

(** *** Land bars *)

Lemma substring_prefix_length (n : nat) (s : string) :
  String.length (String.substring 0 n s) = Nat.min n (String.length s).
Proof.
  revert s. induction n as [|n IH]; intros [|c s]; cbn; try reflexivity.
  now rewrite IH.
Qed.

Lemma string_length_append (s1 s2 : string) :
  String.length (s1 ++ s2) = (String.length s1 + String.length s2)%nat.
Proof.
  induction s1 as [|c s1 IH]; [reflexivity|].
  change (String.length (String c s1 ++ s2))
    with (S (String.length (s1 ++ s2))).
  rewrite IH. reflexivity.
Qed.

Lemma bar_name_cases (loc : string) :
  let shown := if (10 <? String.length loc)%nat
               then (String.substring 0 10 loc ++ "...")%string else loc in
  (String.length shown <= 13)%nat
  /\ ((String.length loc <= 10)%nat -> shown = loc)
  /\ ((10 < String.length loc)%nat ->
      shown = (String.substring 0 10 loc ++ "...")%string
      /\ String.length shown = 13%nat
      /\ String.prefix (String.substring 0 10 loc) loc = true).
Proof.
  cbv zeta. destruct (Nat.ltb_spec 10 (String.length loc)) as [Hlt|Hle].
  - assert (Hlen : String.length (String.substring 0 10 loc) = 10%nat)
      by (rewrite substring_prefix_length; lia).
    rewrite string_length_append, Hlen. cbn [String.length].
    split; [lia|]. split; [lia|]. intros _.
    split; [reflexivity|]. split; [reflexivity|].
    apply String.prefix_correct. now rewrite Hlen.
  - split; [lia|]. split; [reflexivity | lia].
Qed.

(** The land chart has one bar per land, in order, carrying the land's
    acres and its full location; a bar's label is the location itself
    when it has at most ten characters, and otherwise its first ten
    characters followed by three dots, so no label is longer than
    thirteen characters. *)
Theorem landData_labels (lands : list Land) :
  length (landData lands) = length lands
  /\ Forall (fun b => (String.length (bar_name b) <= 13)%nat) (landData lands)
  /\ (forall i land,
         nth_error lands i = Some land ->
         exists b,
           nth_error (landData lands) i = Some b
           /\ fullName b = location land
           /\ bar_acres b = acres land
           /\ ((String.length (location land) <= 10)%nat ->
               bar_name b = location land)
           /\ ((10 < String.length (location land))%nat ->
               bar_name b
               = (String.substring 0 10 (location land) ++ "...")%string
               /\ String.length (bar_name b) = 13%nat
               /\ String.prefix (String.substring 0 10 (location land))
                                (location land) = true)).
Proof.
  unfold landData. split; [apply length_map|]. split.
  - apply List.Forall_map, List.Forall_forall. intros land _.
    apply (bar_name_cases (location land)).
  - intros i land Hi. eexists. split; [apply List.map_nth_error, Hi|].
    cbn [fullName bar_acres bar_name].
    split; [reflexivity|]. split; [reflexivity|].
    apply (bar_name_cases (location land)).
Qed.

Lemma landData_labels_witness :
  exists b,
    nth_error (landData [ {| land_id := "7"; location := "North field by the canal";
                             acres := 5 |} ]) 0 = Some b
    /\ bar_name b = "North fiel..."%string.
Proof.
  destruct (proj2 (proj2 (landData_labels
                            [ {| land_id := "7";
                                 location := "North field by the canal";
                                 acres := 5 |} ]))
                  0%nat _ eq_refl) as (b & Hb & _ & _ & _ & Hlong).
  exists b. split; [exact Hb|].
  apply Hlong. cbn. lia.
Defined.

(** *** 7-day treatment progress *)

Lemma filter_split_length {A} (p q : A -> bool) (l : list A) :
  (forall x, p x = true -> q x = false) ->
  length (List.filter (fun x => p x || q x) l)
  = (length (List.filter p l) + length (List.filter q l))%nat.
Proof.
  intros Hpq. induction l as [|x l IH]; cbn; [reflexivity|].
  destruct (p x) eqn:Hp; cbn.
  - rewrite (Hpq x Hp). cbn. now rewrite IH.
  - destruct (q x); cbn; rewrite IH; lia.
Qed.

Lemma sum_totals_distinct_days (days : list string) (treatments : list Dated) :
  List.NoDup days ->
  sum_totals (generateTreatmentProgress days treatments)
  = Z.of_nat (length (List.filter
                        (fun t => existsb (String.eqb (date_part (scheduled_date_text t)))
                                          days)
                        treatments)).
Proof.
  induction 1 as [|d days Hd Hnd IH]; cbn [generateTreatmentProgress map sum_totals
                                            fold_right total existsb].
  - induction treatments; cbn; auto.
  - fold (generateTreatmentProgress days treatments).
    fold (sum_totals (generateTreatmentProgress days treatments)).
    rewrite IH.
    rewrite (filter_split_length
               (fun t => String.eqb (date_part (scheduled_date_text t)) d)
               (fun t => existsb (String.eqb (date_part (scheduled_date_text t))) days)).
    + lia.
    + intros t Ht. apply String.eqb_eq in Ht.
      destruct (existsb _ days) eqn:E; [|reflexivity].
      apply existsb_eqb_In in E. rewrite Ht in E. contradiction.
Qed.

(** The 7-day series has one bar per day, in the order of the days; in
    every bar completed and pending add up to the total and neither is
    negative; the chart is drawn exactly when some treatment's date is one
    of the days; and with distinct days no treatment is counted twice:
    the totals add up to at most the number of treatments. *)
Theorem treatment_progress_bars (last7Days : list string) (treatments : list Dated) :
  let bars := generateTreatmentProgress last7Days treatments in
  map progress_date bars = last7Days
  /\ Forall (fun d => progress_completed d + pending d = total d
                      /\ 0 <= progress_completed d
                      /\ 0 <= pending d) bars
  /\ (progress_chart_shown bars = true <->
      exists t, In t treatments
                /\ In (date_part (scheduled_date_text t)) last7Days)
  /\ (List.NoDup last7Days -> sum_totals bars <= Z.of_nat (length treatments)).
Proof.
  cbv zeta. split; [|split; [|split]].
  - unfold generateTreatmentProgress. rewrite List.map_map. cbn. apply List.map_id.
  - unfold generateTreatmentProgress. apply List.Forall_map, List.Forall_forall.
    intros day _. cbn [progress_completed pending total].
    set (dayTreatments := List.filter _ treatments).
    pose proof (count_nonneg (fun t => completed (dated t)) dayTreatments).
    pose proof (count_le_length (fun t => completed (dated t)) dayTreatments).
    lia.
  - unfold progress_chart_shown, generateTreatmentProgress.
    rewrite existsb_exists. split.
    + intros (bar & Hbar & Hpos).
      apply in_map_iff in Hbar as (day & <- & Hday).
      cbn [total] in Hpos. apply Z.ltb_lt in Hpos.
      destruct (List.filter
                  (fun t => String.eqb (date_part (scheduled_date_text t)) day)
                  treatments) as [|t ts] eqn:E; [cbn in Hpos; lia|].
      assert (Hin : In t (List.filter
                            (fun t => String.eqb (date_part (scheduled_date_text t)) day)
                            treatments)) by (rewrite E; now left).
      apply List.filter_In in Hin as [Hin Ht]. apply String.eqb_eq in Ht.
      exists t. split; [exact Hin | now rewrite Ht].
    + intros (t & Hin & Hday).
      eexists. split; [apply in_map, Hday|].
      cbn [total]. apply Z.ltb_lt.
      assert (Hf : In t (List.filter
                           (fun t0 => String.eqb (date_part (scheduled_date_text t0))
                                                 (date_part (scheduled_date_text t)))
                           treatments))
        by (apply List.filter_In; split; [exact Hin | apply String.eqb_refl]).
      destruct (List.filter _ treatments); [destruct Hf | cbn [length]; lia].
  - intros Hnd. rewrite sum_totals_distinct_days by exact Hnd.
    pose proof (List.filter_length_le
                  (fun t => existsb (String.eqb (date_part (scheduled_date_text t)))
                                    last7Days) treatments).
    lia.
Qed.

Lemma treatment_progress_bars_witness :
  sum_totals (generateTreatmentProgress ["2024-05-09"; "2024-05-10"] sample_dated)
  <= Z.of_nat (length sample_dated).
Proof.
  apply (proj2 (proj2 (proj2 (treatment_progress_bars
                                ["2024-05-09"; "2024-05-10"]%string
                                sample_dated)))).
  repeat constructor; cbn; intuition discriminate.
Defined.

End Charts.

(** ** Pesticide usage on every treatment set *)

Section PesticideUsageAll.
Import JS Dashboard DashboardView Spec.






(** *** [Object.entries] lists every property once *)










End PesticideUsageAll.

(** ** Routing *)

Section Routing.
Import Session AuthEvents Routes.

(** Rendering never loops: from every route, for every session state,
    at most two redirects lead to an element that is not a redirect.
    While loading it is the loading screen, whatever the route.  A
    signed-in farmer always lands on a protected page - the dashboard
    when coming from the landing page, the auth page or an unknown path -
    and never on the landing or auth page.  Without a user the landing
    page, the auth page and unknown paths show the landing or auth
    page. *)
Theorem routes_settle (user : option Farmer) (loading : bool) (r : Route) :
  exists e,
    follow 2 user loading r = Some e
    /\ (forall to, e <> Navigate to)
    /\ (loading = true -> e = Spinner)
    /\ (loading = false -> user <> None ->
        exists p, e = Protected p
                  /\ (r = Root \/ r = Auth \/ r = NoMatch -> p = DashboardPage))
    /\ (loading = false -> user = None ->
        match r with
        | Root | NoMatch => e = Render HomePage
        | Auth => e = Render AuthPage
        | _ => exists p, e = Protected p
        end).
Proof.
  destruct loading.
  - exists Spinner. destruct r; cbn; repeat split; try discriminate.
  - destruct user as [u|].
    + destruct r; cbn; eexists; (split; [reflexivity|]);
        (split; [discriminate|]); (split; [discriminate|]);
        (split; [|intros _ H; discriminate H]);
        intros _ _; eexists; (split; [reflexivity|]);
        intros [H|[H|H]]; try discriminate H; reflexivity.
    + destruct r; cbn; eexists; (split; [reflexivity|]);
        (split; [discriminate|]); (split; [discriminate|]);
        (split; [intros _ H; contradiction|]);
        intros _ _; try reflexivity; eexists; reflexivity.
Qed.

Lemma routes_settle_witness :
  exists e,
    follow 2 (Some farmer_asha) false NoMatch = Some e
    /\ e = Protected DashboardPage.
Proof.
  destruct (routes_settle (Some farmer_asha) false NoMatch)
    as (e & He & _ & _ & Hu & _).
  exists e. split; [exact He|].
  destruct (Hu eq_refl ltac:(discriminate)) as (p & -> & Hp).
  now rewrite Hp by auto.
Defined.

(** Whatever happened to the page since it loaded, a world that holds a
    user shows a protected page at every route: never the loading
    screen, the landing page or the auth page. *)
Theorem signed_in_sees_protected_page
        (ls ss : gmap string string) (href : string) (captured : Z)
        (acts : list Action) (w : World) (r : Route) :
  perform captured acts (snd (mount (page_load ls ss href))) = Some w ->
  user w <> None ->
  exists p, screen w r = Some (Protected p).
Proof.
  intros Hrun Hu.
  assert (Hl : loading w = false)
    by (apply (perform_settled captured acts _ _ (mount_settled ls ss href) Hrun);
        exact Hu).
  unfold screen. rewrite Hl.
  destruct (user w) as [u|]; [|contradiction].
  destruct r; cbn; eauto.
Qed.

Lemma signed_in_sees_protected_page_witness :
  exists w p,
    perform 0 [Loop (Settle 1000 (FarmerFound farmer_asha))]
            (snd (mount (page_load ∅ ∅ "/"))) = Some w
    /\ screen w Auth = Some (Protected p).
Proof.
  eexists.
  destruct (signed_in_sees_protected_page ∅ ∅ "/" 0
              [Loop (Settle 1000 (FarmerFound farmer_asha))] _ Auth
              ltac:(vm_compute; reflexivity) ltac:(discriminate)) as (p & Hp).
  exists p. split; [vm_compute; reflexivity | exact Hp].
Defined.

End Routing.

